(** * Snowflake-to-ANSI SQL translator: the three-agent pipeline

    A shallow embedding of [streamlit_app.py]: the three agent functions
    ([parse_sql_to_ast], [translate_ast_to_ansi], [validate_ansi_sql]), the
    LangGraph [workflow] that chains them, [convert_snowflake_to_ansi], and
    the chat-history part of the Streamlit script.

    Conventions.
    - A Python [str] is a [string]; a character is a code point below 256.
    - A Python value that can sit in the state, in the artifacts or in a
      chat entry is a [value] (the JSON-shaped fragment of Python values).
    - A Python dict is an association list in insertion order, because the
      script iterates over [.items()].
    - A call that may raise returns a [result]; [Raise e] is an exception
      derived from [Exception], and [str_of_exn e] is [str(e)].
    - The language model, [json.loads], [json.dumps] and the three prompt
      texts are the fields of the class [Env]. *)

From Stdlib Require Import String Ascii List ZArith Bool Arith Lia.
From Stdlib Require Import DecimalString.
Import ListNotations.
Open Scope string_scope.
Set Warnings "-register-all".

(* ================================================================== *)
(** * Python strings *)

Module PyStr.

(** The newline character of the f-strings ([\n]). *)
Definition nl : string := String "010"%char "".

(** The double-quote character. *)
Definition dq : string := String "034"%char "".

(** [str.isspace] on one character, for code points below 256. *)
Definition isspace (c : ascii) : bool :=
  let n := nat_of_ascii c in
  (((9 <=? n) && (n <=? 13)) || ((28 <=? n) && (n <=? 32))
   || (n =? 133) || (n =? 160))%nat.

(** [str.lstrip()]. *)
Fixpoint lstrip (s : string) : string :=
  match s with
  | "" => ""
  | String c s' => if isspace c then lstrip s' else s
  end.

(** [str.rstrip()]. *)
Fixpoint rstrip (s : string) : string :=
  match s with
  | "" => ""
  | String c s' =>
      match rstrip s' with
      | "" => if isspace c then "" else String c ""
      | r => String c r
      end
  end.

(** [str.strip()]: both ends. *)
Definition strip (s : string) : string := rstrip (lstrip s).

(** [s.isspace() or s == ""]: every character is whitespace. *)
Fixpoint blank (s : string) : bool :=
  match s with
  | "" => true
  | String c s' => isspace c && blank s'
  end.

(** [needle in hay] for two strings. *)
Fixpoint contains (needle hay : string) : bool :=
  prefix needle hay
  || match hay with
     | "" => false
     | String _ hay' => contains needle hay'
     end.

(** Truthiness of a string: [bool(s)]. *)
Definition nonempty (s : string) : bool :=
  match s with "" => false | _ => true end.

End PyStr.

(* ================================================================== *)
(** * Python values, dicts, exceptions *)

(** The values [json.loads] can return, which are also the values stored in
    the artifacts and in chat entries.  JSON [null] is Python [None]; a float
    is kept as its [repr]. *)
Inductive value : Type :=
| VNone
| VBool (b : bool)
| VInt (z : Z)
| VFloat (repr : string)
| VStr (s : string)
| VList (items : list value)
| VDict (entries : list (string * value)).

Definition dict : Type := list (string * value).

(** [k in d]. *)
Fixpoint dict_mem (k : string) (d : dict) : bool :=
  match d with
  | [] => false
  | (k', _) :: d' => (k =? k') || dict_mem k d'
  end.

(** [d.get(k)]. *)
Fixpoint dict_get (k : string) (d : dict) : option value :=
  match d with
  | [] => None
  | (k', v) :: d' => if k =? k' then Some v else dict_get k d'
  end.

(** [d[k] = v]: an existing key keeps its place. *)
Fixpoint dict_set (k : string) (v : value) (d : dict) : dict :=
  match d with
  | [] => [(k, v)]
  | (k', v') :: d' =>
      if k =? k' then (k, v) :: d' else (k', v') :: dict_set k v d'
  end.

(** [list(d.keys())]. *)
Definition dict_keys (d : dict) : list string := map fst d.

(** [bool(v)]. *)
Definition truthy (v : value) : bool :=
  match v with
  | VNone => false
  | VBool b => b
  | VInt z => negb (z =? 0)%Z
  | VFloat r => negb ((r =? "0.0") || (r =? "-0.0"))
  | VStr s => PyStr.nonempty s
  | VList l => match l with [] => false | _ => true end
  | VDict d => match d with [] => false | _ => true end
  end.

(** An exception derived from [Exception]; the string is [str(e)]. *)
Inductive exn : Type := Exception (msg : string).

Definition str_of_exn (e : exn) : string :=
  match e with Exception m => m end.

(** The outcome of a call: a returned value or a raised exception. *)
Inductive result (A : Type) : Type :=
| Ok (a : A)
| Raise (e : exn).

Arguments Ok {A} a.
Arguments Raise {A} e.

Definition bind {A B : Type} (c : result A) (k : A -> result B) : result B :=
  match c with
  | Ok a => k a
  | Raise e => Raise e
  end.

Notation "x <- c ;; k" := (bind c (fun x => k))
  (at level 61, c at next level, right associativity).

Definition raised {A : Type} (c : result A) : bool :=
  match c with Ok _ => false | Raise _ => true end.

(** [d[k]], raising [KeyError]. *)
Definition getitem (d : dict) (k : string) : result value :=
  match dict_get k d with
  | Some v => Ok v
  | None => Raise (Exception k)
  end.

(* ================================================================== *)
(** * The external collaborators *)

(** One chat message handed to the model: [{"role": ..., "content": ...}]. *)
Record message : Type := { role : string; content : string }.

(** What the script takes from outside.
    - [llm_invoke msgs] is [llm.invoke(msgs).content]: the text of the reply,
      or the exception of a failed call.
    - [json_loads] is [json.loads]; [json_dumps] is [json.dumps(_, indent=2)],
      which returns on every value that reaches it (a [json.loads] result or
      the error document of stage 1).
    - the three [system_prompt] texts of the agents, which are constants of
      the script; nothing below depends on what they say. *)
Class Env : Type := {
  llm_invoke : list message -> result string;
  json_loads : string -> result value;
  json_dumps : value -> string;
  parse_system_prompt : string;
  translate_system_prompt : string;
  validate_system_prompt : string
}.

(* ================================================================== *)
(** * The state of one conversion *)

(** [class ConverterState(TypedDict)]; [ast] starts as [None]. *)
Record ConverterState : Type := {
  input_query : string;
  ast : value;
  final_sql : string
}.

(** The dict a node returns: the keys it sets, each with its new value.
    [{"ast": x}] is [update_ast x]; a key that is absent is [None] here. *)
Record StateUpdate : Type := {
  set_input_query : option string;
  set_ast : option value;
  set_final_sql : option string
}.

Definition update_ast (v : value) : StateUpdate :=
  {| set_input_query := None; set_ast := Some v; set_final_sql := None |}.

Definition update_final_sql (s : string) : StateUpdate :=
  {| set_input_query := None; set_ast := None; set_final_sql := Some s |}.

(** The keys of the returned dict. *)
Definition written_keys (u : StateUpdate) : list string :=
  ((match set_input_query u with Some _ => ["input_query"] | None => [] end)
   ++ (match set_ast u with Some _ => ["ast"] | None => [] end)
   ++ (match set_final_sql u with Some _ => ["final_sql"] | None => [] end)
  )%list.

(** LangGraph folds a node's dict into the state: each key that is present
    replaces the stored value, the others are kept. *)
Definition apply_update (u : StateUpdate) (s : ConverterState)
  : ConverterState :=
  {| input_query := match set_input_query u with
                    | Some q => q | None => input_query s end;
     ast := match set_ast u with Some v => v | None => ast s end;
     final_sql := match set_final_sql u with
                  | Some t => t | None => final_sql s end |}.

(* ================================================================== *)
(** * The three agents *)

Section Agents.
Context {E : Env}.

Definition system_message (prompt : string) : message :=
  {| role := "system"; content := prompt |}.

Definition user_message (text : string) : message :=
  {| role := "user"; content := text |}.

(** The [try: json.loads(...) except Exception as e: ...] of stage 1. *)
Definition ast_of_response (response_content : string) : value :=
  match json_loads response_content with
  | Ok ast_data => ast_data
  | Raise e =>
      VDict [("error", VStr (str_of_exn e));
             ("raw_response", VStr response_content)]
  end.

(** The messages of each agent's call. *)
Definition parse_messages (state : ConverterState) : list message :=
  let query := input_query state in
  [system_message parse_system_prompt;
   user_message ("SQL to parse:" ++ PyStr.nl ++ query)].

Definition translate_messages (state : ConverterState) : list message :=
  let ast_data := ast state in
  let original_sql := input_query state in
  [system_message translate_system_prompt;
   user_message ("Original Snowflake SQL:" ++ PyStr.nl
                 ++ original_sql ++ PyStr.nl ++ PyStr.nl
                 ++ "AST:" ++ PyStr.nl
                 ++ json_dumps ast_data)].

Definition validate_messages (state : ConverterState) : list message :=
  let candidate_sql := final_sql state in
  let original_sql := input_query state in
  [system_message validate_system_prompt;
   user_message ("Original Snowflake SQL:" ++ PyStr.nl
                 ++ original_sql ++ PyStr.nl ++ PyStr.nl
                 ++ "ANSI SQL:" ++ PyStr.nl
                 ++ candidate_sql)].

Definition parse_sql_to_ast (state : ConverterState) : result StateUpdate :=
  response_content <- llm_invoke (parse_messages state) ;;
  let ast_data := ast_of_response response_content in
  Ok (update_ast ast_data).

Definition translate_ast_to_ansi (state : ConverterState)
  : result StateUpdate :=
  response_content <- llm_invoke (translate_messages state) ;;
  let ansi_sql := PyStr.strip response_content in
  Ok (update_final_sql ansi_sql).

Definition validate_ansi_sql (state : ConverterState) : result StateUpdate :=
  response_content <- llm_invoke (validate_messages state) ;;
  let validated_sql := PyStr.strip response_content in
  Ok (update_final_sql validated_sql).

End Agents.

(* ================================================================== *)
(** * The LangGraph workflow *)

Definition node_fn : Type := ConverterState -> result StateUpdate.

(** A [StateGraph] under construction: the registered nodes, the entry
    point, and the edges, each in the order they were added. *)
Record StateGraph : Type := {
  nodes : list (string * node_fn);
  entry_point : option string;
  edges : list (string * string)
}.

(** [langgraph.graph.END]. *)
Definition END : string := "__end__".

Definition empty_graph : StateGraph :=
  {| nodes := []; entry_point := None; edges := [] |}.

Definition add_node (name : string) (fn : node_fn) (g : StateGraph)
  : StateGraph :=
  {| nodes := (nodes g ++ [(name, fn)])%list;
     entry_point := entry_point g;
     edges := edges g |}.

Definition set_entry_point (name : string) (g : StateGraph) : StateGraph :=
  {| nodes := nodes g; entry_point := Some name; edges := edges g |}.

Definition add_edge (src dst : string) (g : StateGraph) : StateGraph :=
  {| nodes := nodes g;
     entry_point := entry_point g;
     edges := (edges g ++ [(src, dst)])%list |}.

Fixpoint assoc {A : Type} (k : string) (l : list (string * A)) : option A :=
  match l with
  | [] => None
  | (k', a) :: l' => if k =? k' then Some a else assoc k l'
  end.

(** The node that runs after [cur].  Every node of [workflow] has one
    outgoing edge; a node without one ends the run. *)
Definition next_node (g : StateGraph) (cur : string) : string :=
  match assoc cur (edges g) with
  | Some dst => dst
  | None => END
  end.

(** One superstep of the compiled graph: run the current node on the state,
    fold its dict into the state, and move along the node's edge.  The edge
    is taken whatever the node returned; only an exception stops the run. *)
Definition step (g : StateGraph) (cur : string) (s : ConverterState)
  : result (string * ConverterState * StateUpdate) :=
  match assoc cur (nodes g) with
  | None => Raise (Exception ("unknown node " ++ cur))
  | Some fn =>
      u <- fn s ;;
      Ok (next_node g cur, apply_update u s, u)
  end.

(** LangGraph's default [recursion_limit]. *)
Definition recursion_limit : nat := 25.

(** The run from node [cur]: the final state together with the journal of
    the nodes that ran and the dict each one returned. *)
Fixpoint run (g : StateGraph) (fuel : nat) (cur : string)
  (s : ConverterState) : result (ConverterState * list (string * StateUpdate)) :=
  if cur =? END then Ok (s, [])
  else
    match fuel with
    | O => Raise (Exception "GraphRecursionError")
    | S fuel' =>
        r <- step g cur s ;;
        let '(nxt, s', u) := r in
        rest <- run g fuel' nxt s' ;;
        Ok (fst rest, (cur, u) :: snd rest)
    end.

(** [workflow.compile().invoke(initial_state)] with its journal. *)
Definition invoke_journal (g : StateGraph) (initial_state : ConverterState)
  : result (ConverterState * list (string * StateUpdate)) :=
  match entry_point g with
  | None => Raise (Exception "no entry point")
  | Some start => run g recursion_limit start initial_state
  end.

Section Pipeline.
Context {E : Env}.

(** The graph of the script, built by the same calls in the same order. *)
Definition workflow : StateGraph :=
  add_edge "SyntaxValidatorAgent" END
    (add_edge "TranslationAgent" "SyntaxValidatorAgent"
       (add_edge "ParserAgent" "TranslationAgent"
          (set_entry_point "ParserAgent"
             (add_node "SyntaxValidatorAgent" validate_ansi_sql
                (add_node "TranslationAgent" translate_ast_to_ansi
                   (add_node "ParserAgent" parse_sql_to_ast
                      empty_graph)))))).

(** [app.invoke(initial_state)]. *)
Definition app_invoke (initial_state : ConverterState)
  : result ConverterState :=
  r <- invoke_journal workflow initial_state ;;
  Ok (fst r).

(** The state [convert_snowflake_to_ansi] starts from.  The extra
    [messages=[]] of the script is not a key of [ConverterState] and the
    graph drops it. *)
Definition initial_state_of (sql_query : string) : ConverterState :=
  {| input_query := sql_query; ast := VNone; final_sql := "" |}.

(** [convert_snowflake_to_ansi].  [final_state.get("ast", {})] finds the key,
    since stage 1 has set it whenever [app.invoke] returns. *)
Definition convert_snowflake_to_ansi (sql_query : string)
  : result (string * dict) :=
  let intermediate_results : dict := [] in
  let initial_state := initial_state_of sql_query in
  final_state <- app_invoke initial_state ;;
  let intermediate_results :=
    dict_set "AST" (ast final_state) intermediate_results in
  Ok (final_sql final_state, intermediate_results).

(** The journal of the run that [convert_snowflake_to_ansi] makes. *)
Definition convert_journal (sql_query : string)
  : result (list (string * StateUpdate)) :=
  r <- invoke_journal workflow (initial_state_of sql_query) ;;
  Ok (snd r).

(** The states of a run in which the model replies [r1], [r2], [r3]:
    after the parser, after the translator, after the validator. *)
Definition after_parse (q r1 : string) : ConverterState :=
  {| input_query := q; ast := ast_of_response r1; final_sql := "" |}.

Definition after_translate (q r1 r2 : string) : ConverterState :=
  {| input_query := q;
     ast := ast_of_response r1;
     final_sql := PyStr.strip r2 |}.

Definition after_validate (q r1 r3 : string) : ConverterState :=
  {| input_query := q;
     ast := ast_of_response r1;
     final_sql := PyStr.strip r3 |}.

(** The journal of a run in which the model replies [r1], [r2], [r3]. *)
Definition journal_of (r1 r2 r3 : string) : list (string * StateUpdate) :=
  [("ParserAgent", update_ast (ast_of_response r1));
   ("TranslationAgent", update_final_sql (PyStr.strip r2));
   ("SyntaxValidatorAgent", update_final_sql (PyStr.strip r3))].

(** The model answers the three calls of the run on [q]. *)
Definition replies (q r1 r2 r3 : string) : Prop :=
  llm_invoke (parse_messages (initial_state_of q)) = Ok r1
  /\ llm_invoke (translate_messages (after_parse q r1)) = Ok r2
  /\ llm_invoke (validate_messages (after_translate q r1 r2)) = Ok r3.

(** The first call of the run on [q] that raises, raises [e]. *)
Definition first_failure (q : string) (e : exn) : Prop :=
  llm_invoke (parse_messages (initial_state_of q)) = Raise e
  \/ (exists r1,
        llm_invoke (parse_messages (initial_state_of q)) = Ok r1
        /\ llm_invoke (translate_messages (after_parse q r1)) = Raise e)
  \/ (exists r1 r2,
        llm_invoke (parse_messages (initial_state_of q)) = Ok r1
        /\ llm_invoke (translate_messages (after_parse q r1)) = Ok r2
        /\ llm_invoke (validate_messages (after_translate q r1 r2))
           = Raise e).

End Pipeline.

(** The journal entries whose dict sets [key]. *)
Definition writes_of (key : string) (journal : list (string * StateUpdate))
  : list (string * StateUpdate) :=
  filter (fun entry => existsb (String.eqb key) (written_keys (snd entry)))
         journal.

(* ================================================================== *)
(** * The chat history of the Streamlit script *)

(** What the script puts on the page. *)
Inductive widget : Type :=
| st_text (body : value)
| st_error (body : value)
| st_code (body : value) (language : string)
| st_subheader (body : string)
| st_json (body : value)
| st_chat_message (name : string) (inside : list widget)
| st_expander (label : string) (expanded : bool) (inside : list widget).

(** [isinstance(answer, str) and "Error" in answer]. *)
Definition is_error_answer (answer : value) : bool :=
  match answer with
  | VStr s => PyStr.contains "Error" s
  | _ => false
  end.

(** [v.items()]. *)
Definition dict_items (v : value) : result dict :=
  match v with
  | VDict d => Ok d
  | _ => Raise (Exception "object has no attribute 'items'")
  end.

(** The loop over the intermediate steps, inside the expander. *)
Definition render_steps (items : dict) : list widget :=
  flat_map
    (fun item =>
       let '(step_name, step_result) := item in
       if step_name =? "AST"
       then [st_subheader "AST Tree"; st_json step_result]
       else [])
    items.

(** The answer of a stored entry, as the replay loop shows it. *)
Definition replay_answer (answer : value) : widget :=
  if is_error_answer answer
  then st_error answer
  else st_code answer "sql".

(** The body of the replay loop for one stored entry. *)
Definition replay_chat (chat : dict) : result (list widget) :=
  question <- getitem chat "question" ;;
  answer <- getitem chat "answer" ;;
  steps <-
    (if dict_mem "intermediate" chat
     then
       intermediate <- getitem chat "intermediate" ;;
       if truthy intermediate
       then
         items <- dict_items intermediate ;;
         Ok [st_expander "View Intermediate Steps" false
               (render_steps items)]
       else Ok []
     else Ok []) ;;
  Ok [st_chat_message "user" [st_text question];
      st_chat_message "assistant" (replay_answer answer :: steps)].

(** The replay of the whole history, oldest entry first. *)
Fixpoint replay_history (history : list dict) : result (list widget) :=
  match history with
  | [] => Ok []
  | chat :: rest =>
      here <- replay_chat chat ;;
      after <- replay_history rest ;;
      Ok (here ++ after)%list
  end.

Section Chat.
Context {E : Env}.

(** The [try ... except Exception as e] around the conversion: the flag
    [success], [ansi_result] and [intermediate_results]. *)
Definition attempt (user_question : string) : bool * string * dict :=
  match convert_snowflake_to_ansi user_question with
  | Ok (ansi_result, intermediate_results) =>
      (true, ansi_result, intermediate_results)
  | Raise e => (false, "Error: " ++ str_of_exn e, [])
  end.

(** The dict appended to [interactive_chat_history]. *)
Definition chat_entry (user_question ansi_result : string)
  (intermediate_results : dict) : dict :=
  [("question", VStr user_question);
   ("answer", VStr ansi_result);
   ("intermediate", VDict intermediate_results)].

(** The body of [if user_question:]: the new history and what is shown. *)
Definition on_question (history : list dict) (user_question : string)
  : list dict * list widget :=
  let '(success, ansi_result, intermediate_results) :=
    attempt user_question in
  let history' :=
    (history ++ [chat_entry user_question ansi_result intermediate_results])%list
  in
  let shown :=
    (if success
     then st_code (VStr ansi_result) "sql"
     else st_error (VStr ansi_result))
    :: (if success && truthy (VDict intermediate_results)
        then [st_expander "View Intermediate Steps" false
                (render_steps intermediate_results)]
        else []) in
  (history',
   [st_chat_message "user" [st_text (VStr user_question)];
    st_chat_message "assistant" shown]).

(** One run of the script after the API-key gate: replay the stored history,
    then handle the chat input, if there is one and it is not empty. *)
Definition script_run (history : list dict) (user_question : option string)
  : result (list dict * list widget) :=
  replayed <- replay_history history ;;
  match user_question with
  | Some q =>
      if PyStr.nonempty q
      then
        let '(history', shown) := on_question history q in
        Ok (history', (replayed ++ shown)%list)
      else Ok (history, replayed)
  | None => Ok (history, replayed)
  end.

End Chat.

(* ================================================================== *)
(** * Concrete collaborators for the examples *)

(** Stand-ins for the model and the JSON library, used to run the pipeline
    on concrete requests.  [loads] decodes the fragment of JSON without
    floats and without [\u] escapes and raises on the rest; [dumps] prints
    on one line. *)
Module Stub.

Definition json_ws (c : ascii) : bool :=
  let n := nat_of_ascii c in
  ((n =? 32) || (n =? 9) || (n =? 10) || (n =? 13))%nat.

Fixpoint skip_ws (s : string) : string :=
  match s with
  | "" => ""
  | String c r => if json_ws c then skip_ws r else s
  end.

Definition digit_of (c : ascii) : option Z :=
  let n := nat_of_ascii c in
  if ((48 <=? n) && (n <=? 57))%nat then Some (Z.of_nat n - 48)%Z else None.

Fixpoint scan_digits (s : string) (acc : Z) : Z * string :=
  match s with
  | "" => (acc, "")
  | String c r =>
      match digit_of c with
      | Some d => scan_digits r (10 * acc + d)%Z
      | None => (acc, s)
      end
  end.

(** The digits of a JSON integer: a lone [0], or a run not starting
    with [0].  A fraction or an exponent after it is refused. *)
Definition scan_nat (s : string) : option (Z * string) :=
  match s with
  | "" => None
  | String c r =>
      match digit_of c with
      | None => None
      | Some d =>
          let '(n, rest) :=
            if (d =? 0)%Z then (0%Z, r) else scan_digits r d in
          match rest with
          | String "."%char _ | String "e"%char _ | String "E"%char _ => None
          | _ => Some (n, rest)
          end
      end
  end.

Definition unescape (c : ascii) : option ascii :=
  match c with
  | "034"%char => Some "034"%char
  | "\"%char => Some "\"%char
  | "/"%char => Some "/"%char
  | "b"%char => Some "008"%char
  | "f"%char => Some "012"%char
  | "n"%char => Some "010"%char
  | "r"%char => Some "013"%char
  | "t"%char => Some "009"%char
  | _ => None
  end.

(** The rest of a string literal, after its opening quote. *)
Fixpoint scan_string (s : string) : option (string * string) :=
  match s with
  | "" => None
  | String c r =>
      if (c =? "034")%char then Some ("", r)
      else if (c =? "\")%char then
        match r with
        | "" => None
        | String e r' =>
            match unescape e, scan_string r' with
            | Some x, Some (t, rest) => Some (String x t, rest)
            | _, _ => None
            end
        end
      else if (nat_of_ascii c <? 32)%nat then None
      else
        match scan_string r with
        | Some (t, rest) => Some (String c t, rest)
        | None => None
        end
  end.

Fixpoint parse_value (fuel : nat) (s : string) : option (value * string) :=
  match fuel with
  | O => None
  | S f =>
      match skip_ws s with
      | String "{"%char r =>
          match skip_ws r with
          | String "}"%char r' => Some (VDict [], r')
          | r1 => parse_members f r1 []
          end
      | String "["%char r =>
          match skip_ws r with
          | String "]"%char r' => Some (VList [], r')
          | r1 => parse_elements f r1 []
          end
      | String "034"%char r =>
          match scan_string r with
          | Some (t, rest) => Some (VStr t, rest)
          | None => None
          end
      | String "t"%char (String "r"%char (String "u"%char
          (String "e"%char r))) => Some (VBool true, r)
      | String "f"%char (String "a"%char (String "l"%char
          (String "s"%char (String "e"%char r)))) => Some (VBool false, r)
      | String "n"%char (String "u"%char (String "l"%char
          (String "l"%char r))) => Some (VNone, r)
      | String "-"%char r =>
          match scan_nat r with
          | Some (n, rest) => Some (VInt (- n), rest)
          | None => None
          end
      | other =>
          match scan_nat other with
          | Some (n, rest) => Some (VInt n, rest)
          | None => None
          end
      end
  end
with parse_elements (fuel : nat) (s : string) (acc : list value)
  : option (value * string) :=
  match fuel with
  | O => None
  | S f =>
      match parse_value f s with
      | None => None
      | Some (v, r) =>
          match skip_ws r with
          | String ","%char r' => parse_elements f r' (acc ++ [v])%list
          | String "]"%char r' => Some (VList (acc ++ [v])%list, r')
          | _ => None
          end
      end
  end
with parse_members (fuel : nat) (s : string) (acc : dict)
  : option (value * string) :=
  match fuel with
  | O => None
  | S f =>
      match skip_ws s with
      | String "034"%char r =>
          match scan_string r with
          | None => None
          | Some (k, r1) =>
              match skip_ws r1 with
              | String ":"%char r2 =>
                  match parse_value f r2 with
                  | None => None
                  | Some (v, r3) =>
                      match skip_ws r3 with
                      | String ","%char r4 =>
                          parse_members f r4 (dict_set k v acc)
                      | String "}"%char r4 =>
                          Some (VDict (dict_set k v acc), r4)
                      | _ => None
                      end
                  end
              | _ => None
              end
          end
      | _ => None
      end
  end.

(** [json.loads] on the fragment. *)
Definition loads (s : string) : result value :=
  match parse_value (2 * String.length s + 2) s with
  | None => Raise (Exception "Expecting value")
  | Some (v, rest) =>
      match skip_ws rest with
      | "" => Ok v
      | _ => Raise (Exception "Extra data")
      end
  end.

Definition escape_char (c : ascii) : string :=
  if (c =? "034")%char then String "\"%char PyStr.dq
  else if (c =? "\")%char then String "\"%char (String "\"%char "")
  else if (c =? "010")%char then String "\"%char "n"
  else if (c =? "013")%char then String "\"%char "r"
  else if (c =? "009")%char then String "\"%char "t"
  else if (c =? "008")%char then String "\"%char "b"
  else if (c =? "012")%char then String "\"%char "f"
  else String c "".

Fixpoint escape (s : string) : string :=
  match s with
  | "" => ""
  | String c r => escape_char c ++ escape r
  end.

Definition quote (s : string) : string := PyStr.dq ++ escape s ++ PyStr.dq.

Definition string_of_Z (z : Z) : string :=
  NilZero.string_of_int (Z.to_int z).

(** [json.dumps] on one line. *)
Fixpoint dumps (v : value) : string :=
  match v with
  | VNone => "null"
  | VBool true => "true"
  | VBool false => "false"
  | VInt z => string_of_Z z
  | VFloat r => r
  | VStr s => quote s
  | VList l => "[" ++ String.concat ", " (map dumps l) ++ "]"
  | VDict d =>
      "{"
      ++ String.concat ", " (map (fun kv => quote (fst kv) ++ ": " ++ dumps (snd kv)) d)
      ++ "}"
  end.

(** The opening line of each agent's prompt stands for the prompt. *)
Definition parse_prompt : string :=
  "Role: You are a SQL parsing assistant, and you are an expert at building Abstract Syntax Trees (ASTs) from Snowflake SQL.".

Definition translate_prompt : string :=
  "Role: You are an expert SQL translator, specializing in converting Snowflake SQL to ANSI SQL.".

Definition validate_prompt : string :=
  "Role: You are an advanced SQL validator, ensuring both syntax correctness and logical equivalence.".

(** A model that answers by stage: [r1] to the parser's call, [r2] to the
    translator's, [r3] to the validator's. *)
Definition scripted_llm (r1 r2 r3 : result string) (msgs : list message)
  : result string :=
  match msgs with
  | [] => Raise (Exception "no messages")
  | sys :: _ =>
      if content sys =? parse_prompt then r1
      else if content sys =? translate_prompt then r2
      else r3
  end.

Definition scripted (r1 r2 r3 : result string) : Env :=
  {| llm_invoke := scripted_llm r1 r2 r3;
     json_loads := loads;
     json_dumps := dumps;
     parse_system_prompt := parse_prompt;
     translate_system_prompt := translate_prompt;
     validate_system_prompt := validate_prompt |}.

(** A model that answers every call with the payload it was sent. *)
Definition echo_llm (msgs : list message) : result string :=
  match msgs with
  | [_; usr] => Ok (content usr)
  | _ => Raise (Exception "expected a system and a user message")
  end.

Definition echo : Env :=
  {| llm_invoke := echo_llm;
     json_loads := loads;
     json_dumps := dumps;
     parse_system_prompt := parse_prompt;
     translate_system_prompt := translate_prompt;
     validate_system_prompt := validate_prompt |}.

(** The scenario of the specification. *)
Definition scenario_ast_text : string :=
  "{" ++ PyStr.dq ++ "type" ++ PyStr.dq ++ ":"
  ++ PyStr.dq ++ "select_statement" ++ PyStr.dq ++ "}".

Definition scenario_sql : string := "SELECT LOWER(a) LIKE LOWER('x')".

Definition scenario : Env :=
  scripted (Ok scenario_ast_text) (Ok scenario_sql) (Ok scenario_sql).

(** A model whose every reply is empty. *)
Definition silent : Env := scripted (Ok "") (Ok "") (Ok "").

(** A model that cannot be reached. *)
Definition unreachable : Env :=
  let down := Raise (Exception "Connection error.") in
  scripted down down down.

(** A model whose SQL mentions a column called [Error]. *)
Definition error_column : Env :=
  scripted (Ok "[]")
           (Ok "SELECT Error FROM log")
           (Ok "SELECT Error FROM log").

(** A model whose parser reply is the JSON text [null]. *)
Definition null_reply : Env :=
  scripted (Ok "null") (Ok "SELECT 1") (Ok "SELECT 1").

End Stub.

(* ================================================================== *)
(** * A session of the script *)

(** What the replay loop shows for the entry [chat_entry q a i]. *)
Definition replayed_entry (q a : string) (i : dict) : list widget :=
  [st_chat_message "user" [st_text (VStr q)];
   st_chat_message "assistant"
     (replay_answer (VStr a)
      :: (if truthy (VDict i)
          then [st_expander "View Intermediate Steps" false (render_steps i)]
          else []))].

(** An entry of the shape the script appends. *)
Definition made_by_script (chat : dict) : Prop :=
  exists q a i, chat = chat_entry q a i.

(** The chat inputs that reach the body of [if user_question:]. *)
Definition submitted (inputs : list (option string)) : list string :=
  flat_map
    (fun input =>
       match input with
       | Some q => if PyStr.nonempty q then [q] else []
       | None => []
       end)
    inputs.

Section Session.
Context {E : Env}.

(** The entry the script stores for a submitted question. *)
Definition entry_of (user_question : string) : dict :=
  let '(_, ansi_result, intermediate_results) := attempt user_question in
  chat_entry user_question ansi_result intermediate_results.

(** Streamlit runs the script once per interaction and keeps
    [interactive_chat_history] in the session state between the runs. *)
Fixpoint session (history : list dict) (inputs : list (option string))
  : result (list dict) :=
  match inputs with
  | [] => Ok history
  | input :: rest =>
      r <- script_run history input ;;
      session (fst r) rest
  end.

End Session.

(* ================================================================== *)
(** * Facts about strings *)

Module PyStrFacts.
Import PyStr.

Lemma prefix_iff_append (p s : string) :
  prefix p s = true <-> exists t, s = p ++ t.
Proof.
  revert s; induction p as [|a p IH]; intros s.
  - split; [intros _; now exists s | intros _; now destruct s].
  - destruct s as [|b s]; simpl.
    + split; [discriminate | intros [t Ht]; discriminate].
    + destruct (ascii_dec a b) as [Hab|Hab].
      * rewrite IH. split; intros [t Ht]; exists t.
        -- now rewrite Ht, Hab.
        -- now injection Ht.
      * split; [discriminate | intros [t Ht]; injection Ht; congruence].
Qed.

(** [contains] is Python's [in]: the needle occurs somewhere in the hay. *)
Lemma contains_iff_occurs (needle hay : string) :
  contains needle hay = true <-> exists a b, hay = a ++ needle ++ b.
Proof.
  induction hay as [|c hay IH].
  - cbn [contains]. rewrite orb_false_r, prefix_iff_append. split.
    + intros [t Ht]. now exists "", t.
    + intros [a [b H]]. destruct a; [now exists b | discriminate].
  - cbn [contains]. rewrite orb_true_iff, prefix_iff_append, IH. split.
    + intros [[t Ht] | [a [b H]]].
      * now exists "", t.
      * exists (String c a), b. simpl. now rewrite H.
    + intros [a [b H]]. destruct a as [|c' a].
      * left. now exists b.
      * right. simpl in H. injection H as _ H. now exists a, b.
Qed.

Lemma lstrip_blank (s : string) : blank s = true -> lstrip s = "".
Proof.
  induction s as [|c s IH]; simpl; [reflexivity|].
  intros H; apply andb_true_iff in H as [Hc Hs]. now rewrite Hc, IH.
Qed.




(** What [strip] returns starts with no whitespace. *)
Lemma lstrip_head (s : string) :
  match lstrip s with
  | "" => True
  | String c _ => isspace c = false
  end.
Proof.
  induction s as [|c s IH]; simpl; [exact I|].
  destruct (isspace c) eqn:Hc; [exact IH | exact Hc].
Qed.

Lemma rstrip_head (s : string) :
  match s, rstrip s with
  | String c _, String c' _ => c' = c
  | _, _ => True
  end.
Proof.
  destruct s as [|c s]; simpl; [exact I|].
  destruct (rstrip s); [destruct (isspace c)|]; simpl; auto.
Qed.

Lemma strip_head (s : string) :
  match strip s with
  | "" => True
  | String c _ => isspace c = false
  end.
Proof.
  unfold strip.
  pose proof (lstrip_head s) as Hl. pose proof (rstrip_head (lstrip s)) as Hr.
  destruct (lstrip s) as [|c t]; simpl in *; [exact I|].
  destruct (rstrip t); [destruct (isspace c) eqn:Hc|]; simpl in *; auto.
Qed.

Lemma rstrip_idempotent (s : string) : rstrip (rstrip s) = rstrip s.
Proof.
  induction s as [|c s IH]; simpl; [reflexivity|].
  destruct (rstrip s) as [|a r] eqn:Hr.
  - destruct (isspace c) eqn:Hc; simpl; [reflexivity | now rewrite Hc].
  - cbn [rstrip] in *. now rewrite IH.
Qed.

Lemma lstrip_fixed (s : string) :
  match s with "" => True | String c _ => isspace c = false end ->
  lstrip s = s.
Proof. destruct s as [|c s]; simpl; [reflexivity | now intros ->]. Qed.

(** Stripping twice is stripping once. *)
Lemma strip_idempotent (s : string) : strip (strip s) = strip s.
Proof.
  unfold strip at 1. rewrite (lstrip_fixed (strip s) (strip_head s)).
  unfold strip. apply rstrip_idempotent.
Qed.

Example strip_removes_both_ends :
  strip (" " ++ nl ++ "SELECT 1 ;" ++ nl) = "SELECT 1 ;".
Proof. reflexivity. Qed.

Example strip_keeps_inner_space : strip "a  b" = "a  b".
Proof. reflexivity. Qed.

Example contains_is_case_sensitive :
  contains "Error" "SELECT Error FROM log" = true
  /\ contains "Error" "SELECT error FROM log" = false.
Proof. split; reflexivity. Qed.

End PyStrFacts.

(** The stand-in decoder on the texts of the examples. *)
Module StubFacts.
Import Stub.

Example loads_scenario :
  loads scenario_ast_text = Ok (VDict [("type", VStr "select_statement")]).
Proof. reflexivity. Qed.

Example loads_refuses_sql :
  loads "SELECT 1" = Raise (Exception "Expecting value").
Proof. reflexivity. Qed.

Example loads_refuses_trailing_text :
  loads "[1, 2] and more" = Raise (Exception "Extra data").
Proof. reflexivity. Qed.

Example loads_after_dumps :
  let v := VDict [("type", VStr "join_expression");
                  ("on", VList [VInt (-12); VNone; VBool true]);
                  ("left_table", VDict [])] in
  loads (dumps v) = Ok v.
Proof. reflexivity. Qed.

Example loads_keeps_last_duplicate :
  loads ("{" ++ quote "a" ++ ": 1, " ++ quote "a" ++ ": 2}")
  = Ok (VDict [("a", VInt 2)]).
Proof. reflexivity. Qed.

End StubFacts.

(* ================================================================== *)
(** * The run of the workflow *)

Section PipelineFacts.
Context {E : Env}.

(** The edges of the workflow, read off the graph. *)
Lemma workflow_entry : entry_point workflow = Some "ParserAgent".
Proof. reflexivity. Qed.

Lemma workflow_next :
  next_node workflow "ParserAgent" = "TranslationAgent"
  /\ next_node workflow "TranslationAgent" = "SyntaxValidatorAgent"
  /\ next_node workflow "SyntaxValidatorAgent" = END.
Proof. repeat split. Qed.

(** The function registered under each node name. *)
Lemma workflow_nodes :
  assoc "ParserAgent" (nodes workflow) = Some parse_sql_to_ast
  /\ assoc "TranslationAgent" (nodes workflow) = Some translate_ast_to_ansi
  /\ assoc "SyntaxValidatorAgent" (nodes workflow) = Some validate_ansi_sql.
Proof. repeat split. Qed.

(** One superstep at each node. *)
Lemma step_parser (s : ConverterState) :
  step workflow "ParserAgent" s
  = u <- parse_sql_to_ast s ;; Ok ("TranslationAgent", apply_update u s, u).
Proof. reflexivity. Qed.

Lemma step_translator (s : ConverterState) :
  step workflow "TranslationAgent" s
  = u <- translate_ast_to_ansi s ;;
    Ok ("SyntaxValidatorAgent", apply_update u s, u).
Proof. reflexivity. Qed.

Lemma step_validator (s : ConverterState) :
  step workflow "SyntaxValidatorAgent" s
  = u <- validate_ansi_sql s ;; Ok (END, apply_update u s, u).
Proof. reflexivity. Qed.

(** The whole run is the three agents in a row, well inside the
    recursion limit. *)
Lemma invoke_journal_workflow (s0 : ConverterState) :
  invoke_journal workflow s0
  = u1 <- parse_sql_to_ast s0 ;;
    u2 <- translate_ast_to_ansi (apply_update u1 s0) ;;
    u3 <- validate_ansi_sql (apply_update u2 (apply_update u1 s0)) ;;
    Ok (apply_update u3 (apply_update u2 (apply_update u1 s0)),
        [("ParserAgent", u1); ("TranslationAgent", u2);
         ("SyntaxValidatorAgent", u3)]).
Proof.
  unfold invoke_journal. rewrite workflow_entry. unfold recursion_limit.
  cbn [run]. change ("ParserAgent" =? END) with false. cbv iota.
  rewrite step_parser.
  destruct (parse_sql_to_ast s0) as [u1|e]; cbn [bind]; [|reflexivity].
  cbn [run]. change ("TranslationAgent" =? END) with false. cbv iota.
  rewrite step_translator.
  destruct (translate_ast_to_ansi (apply_update u1 s0)) as [u2|e];
    cbn [bind]; [|reflexivity].
  cbn [run]. change ("SyntaxValidatorAgent" =? END) with false. cbv iota.
  rewrite step_validator.
  destruct (validate_ansi_sql (apply_update u2 (apply_update u1 s0)))
    as [u3|e]; cbn [bind]; [|reflexivity].
  cbn [run]. change (END =? END) with true. cbv iota. reflexivity.
Qed.

(** Each agent, once the model has replied. *)
Lemma parse_on_reply (s : ConverterState) (r : string) :
  llm_invoke (parse_messages s) = Ok r ->
  parse_sql_to_ast s = Ok (update_ast (ast_of_response r)).
Proof. intros H. unfold parse_sql_to_ast. now rewrite H. Qed.

Lemma translate_on_reply (s : ConverterState) (r : string) :
  llm_invoke (translate_messages s) = Ok r ->
  translate_ast_to_ansi s = Ok (update_final_sql (PyStr.strip r)).
Proof. intros H. unfold translate_ast_to_ansi. now rewrite H. Qed.

Lemma validate_on_reply (s : ConverterState) (r : string) :
  llm_invoke (validate_messages s) = Ok r ->
  validate_ansi_sql s = Ok (update_final_sql (PyStr.strip r)).
Proof. intros H. unfold validate_ansi_sql. now rewrite H. Qed.

(** An agent returns only if the model replied, and raises only what the
    model raised. *)
Lemma parse_inv (s : ConverterState) (u : StateUpdate) :
  parse_sql_to_ast s = Ok u ->
  exists r, llm_invoke (parse_messages s) = Ok r
            /\ u = update_ast (ast_of_response r).
Proof.
  unfold parse_sql_to_ast. destruct (llm_invoke (parse_messages s)) as [r|e];
    cbn [bind]; [|discriminate].
  intros H; injection H as <-. now exists r.
Qed.

Lemma translate_inv (s : ConverterState) (u : StateUpdate) :
  translate_ast_to_ansi s = Ok u ->
  exists r, llm_invoke (translate_messages s) = Ok r
            /\ u = update_final_sql (PyStr.strip r).
Proof.
  unfold translate_ast_to_ansi.
  destruct (llm_invoke (translate_messages s)) as [r|e];
    cbn [bind]; [|discriminate].
  intros H; injection H as <-. now exists r.
Qed.

Lemma validate_inv (s : ConverterState) (u : StateUpdate) :
  validate_ansi_sql s = Ok u ->
  exists r, llm_invoke (validate_messages s) = Ok r
            /\ u = update_final_sql (PyStr.strip r).
Proof.
  unfold validate_ansi_sql.
  destruct (llm_invoke (validate_messages s)) as [r|e];
    cbn [bind]; [|discriminate].
  intros H; injection H as <-. now exists r.
Qed.

(** Progress: when the model answers the three calls, the run returns. *)
Lemma invoke_on_replies (q r1 r2 r3 : string) :
  replies q r1 r2 r3 ->
  invoke_journal workflow (initial_state_of q)
  = Ok (after_validate q r1 r3, journal_of r1 r2 r3).
Proof.
  intros (H1 & H2 & H3). rewrite invoke_journal_workflow.
  rewrite (parse_on_reply _ _ H1). cbn [bind].
  change (apply_update (update_ast (ast_of_response r1)) (initial_state_of q))
    with (after_parse q r1).
  rewrite (translate_on_reply _ _ H2). cbn [bind].
  change (apply_update (update_final_sql (PyStr.strip r2)) (after_parse q r1))
    with (after_translate q r1 r2).
  rewrite (validate_on_reply _ _ H3). cbn [bind]. reflexivity.
Qed.

(** Every run that returns is such a run. *)
Lemma invoke_ok_inv (q : string) (sf : ConverterState)
  (journal : list (string * StateUpdate)) :
  invoke_journal workflow (initial_state_of q) = Ok (sf, journal) ->
  exists r1 r2 r3,
    replies q r1 r2 r3
    /\ sf = after_validate q r1 r3
    /\ journal = journal_of r1 r2 r3.
Proof.
  rewrite invoke_journal_workflow.
  destruct (parse_sql_to_ast (initial_state_of q)) as [u1|e] eqn:P1;
    cbn [bind]; [|discriminate].
  apply parse_inv in P1 as (r1 & H1 & ->).
  change (apply_update (update_ast (ast_of_response r1)) (initial_state_of q))
    with (after_parse q r1).
  destruct (translate_ast_to_ansi (after_parse q r1)) as [u2|e] eqn:P2;
    cbn [bind]; [|discriminate].
  apply translate_inv in P2 as (r2 & H2 & ->).
  change (apply_update (update_final_sql (PyStr.strip r2)) (after_parse q r1))
    with (after_translate q r1 r2).
  destruct (validate_ansi_sql (after_translate q r1 r2)) as [u3|e] eqn:P3;
    cbn [bind]; [|discriminate].
  apply validate_inv in P3 as (r3 & H3 & ->).
  intros H; injection H as <- <-.
  exists r1, r2, r3. repeat split; assumption.
Qed.

(** A run raises exactly the exception of the first call that fails. *)
Lemma invoke_raise_iff (q : string) (e : exn) :
  invoke_journal workflow (initial_state_of q) = Raise e
  <-> first_failure q e.
Proof.
  rewrite invoke_journal_workflow. unfold first_failure.
  unfold parse_sql_to_ast at 1.
  destruct (llm_invoke (parse_messages (initial_state_of q))) as [r1|e1];
    cbn [bind].
  2:{ split.
      - intros H; injection H as ->. now left.
      - intros [H | [(r1 & H & _) | (r1 & r2 & H & _)]];
          congruence. }
  change (apply_update (update_ast (ast_of_response r1)) (initial_state_of q))
    with (after_parse q r1).
  unfold translate_ast_to_ansi at 1.
  destruct (llm_invoke (translate_messages (after_parse q r1))) as [r2|e2]
    eqn:H2; cbn [bind].
  2:{ split.
      - intros H; injection H as ->. right; left. now exists r1.
      - intros [H | [(r1' & H & H') | (r1' & r2 & H & H' & _)]];
          try discriminate; injection H as <-; congruence. }
  change (apply_update (update_final_sql (PyStr.strip r2)) (after_parse q r1))
    with (after_translate q r1 r2).
  unfold validate_ansi_sql.
  destruct (llm_invoke (validate_messages (after_translate q r1 r2)))
    as [r3|e3] eqn:H3; cbn [bind].
  - split; [discriminate|].
    intros [H | [(r1' & H & H') | (r1' & r2' & H & H' & H'')]];
      try discriminate; injection H as <-; try congruence;
      rewrite H2 in H'; injection H' as <-; congruence.
  - split.
    + intros H; injection H as ->. right; right. now exists r1, r2.
    + intros [H | [(r1' & H & H') | (r1' & r2' & H & H' & H'')]];
        try discriminate; injection H as <-; try congruence;
        rewrite H2 in H'; injection H' as <-; congruence.
Qed.

(** [convert_snowflake_to_ansi] in terms of the run. *)
Lemma convert_on_replies (q r1 r2 r3 : string) :
  replies q r1 r2 r3 ->
  convert_snowflake_to_ansi q
  = Ok (PyStr.strip r3, [("AST", ast_of_response r1)]).
Proof.
  intros H. unfold convert_snowflake_to_ansi, app_invoke.
  now rewrite (invoke_on_replies _ _ _ _ H).
Qed.

Lemma convert_ok_inv (q out : string) (artifacts : dict) :
  convert_snowflake_to_ansi q = Ok (out, artifacts) ->
  exists r1 r2 r3,
    replies q r1 r2 r3
    /\ out = PyStr.strip r3
    /\ artifacts = [("AST", ast_of_response r1)].
Proof.
  unfold convert_snowflake_to_ansi, app_invoke.
  destruct (invoke_journal workflow (initial_state_of q)) as [[sf j]|e] eqn:H;
    cbn [bind]; [|discriminate].
  apply invoke_ok_inv in H as (r1 & r2 & r3 & Hr & -> & _).
  intros H; injection H as <- <-. now exists r1, r2, r3.
Qed.

Lemma convert_raise_iff (q : string) (e : exn) :
  convert_snowflake_to_ansi q = Raise e <-> first_failure q e.
Proof.
  rewrite <- invoke_raise_iff. unfold convert_snowflake_to_ansi, app_invoke.
  destruct (invoke_journal workflow (initial_state_of q)) as [[sf j]|e'];
    cbn [bind]; split; congruence.
Qed.

End PipelineFacts.

(** What stage 1 stores, read off the outcome of [json.loads]. *)
Lemma ast_of_response_cases {E : Env} (r : string) :
  (forall tree, json_loads r = Ok tree -> ast_of_response r = tree)
  /\ (forall e,
         json_loads r = Raise e ->
         ast_of_response r
         = VDict [("error", VStr (str_of_exn e)); ("raw_response", VStr r)])
  /\ (ast_of_response r = VNone <-> json_loads r = Ok VNone).
Proof.
  unfold ast_of_response. destruct (json_loads r) as [tree|e].
  - split; [intros t Ht; now injection Ht|]. split; [discriminate|].
    split; congruence.
  - split; [discriminate|]. split; [intros e' He; now injection He as <-|].
    split; discriminate.
Qed.

(* ================================================================== *)
(** * The properties of the specification *)

Section Claims.
Context {E : Env}.

(** C1.  Stage 1 contains every decoding failure.  Whatever text the model
    replies to the parser's call, the [try]/[except] around [json.loads]
    yields a value: the decoded tree when decoding returns, and otherwise
    the dict [{"error": str(e), "raw_response": reply}] holding the reason
    and the reply unchanged.  The parser node therefore returns, and the
    graph moves on to the translator with that value stored in [ast]. *)
Theorem stage1_contains_decoding_failures
  (state : ConverterState) (reply : string) :
  llm_invoke (parse_messages state) = Ok reply ->
  ((exists tree,
       json_loads reply = Ok tree /\ ast_of_response reply = tree)
   \/ (exists e,
          json_loads reply = Raise e
          /\ ast_of_response reply
             = VDict [("error", VStr (str_of_exn e));
                      ("raw_response", VStr reply)]))
  /\ parse_sql_to_ast state = Ok (update_ast (ast_of_response reply))
  /\ step workflow "ParserAgent" state
     = Ok ("TranslationAgent",
           {| input_query := input_query state;
              ast := ast_of_response reply;
              final_sql := final_sql state |},
           update_ast (ast_of_response reply)).
Proof.
  intros H. split; [|split].
  - unfold ast_of_response. destruct (json_loads reply) as [tree|e].
    + left. now exists tree.
    + right. now exists e.
  - now apply parse_on_reply.
  - rewrite step_parser, (parse_on_reply _ _ H). reflexivity.
Qed.


(** C3.  When the model answers the three calls, the conversion returns
    the pair of the validator's stripped reply and a dict with the single
    key ["AST"] holding the value stage 1 stored.  In the scenario of the
    specification (request [SELECT a ILIKE 'x'], parser reply
    [{"type":"select_statement"}], translator and validator reply
    [SELECT LOWER(a) LIKE LOWER('x')]) the pair is that SQL text and
    [{"AST": {"type": "select_statement"}}]. *)
Theorem convert_returns_sql_and_ast_artifact (q r1 r2 r3 : string) :
  replies q r1 r2 r3 ->
  convert_snowflake_to_ansi q
  = Ok (PyStr.strip r3, [("AST", ast_of_response r1)])
  /\ dict_keys [("AST", ast_of_response r1)] = ["AST"]
  /\ (q = "SELECT a ILIKE 'x'" ->
      r1 = Stub.scenario_ast_text ->
      r2 = "SELECT LOWER(a) LIKE LOWER('x')" ->
      r3 = "SELECT LOWER(a) LIKE LOWER('x')" ->
      json_loads Stub.scenario_ast_text
      = Ok (VDict [("type", VStr "select_statement")]) ->
      convert_snowflake_to_ansi "SELECT a ILIKE 'x'"
      = Ok ("SELECT LOWER(a) LIKE LOWER('x')",
            [("AST", VDict [("type", VStr "select_statement")])])).
Proof.
  intros H. split; [exact (convert_on_replies _ _ _ _ H)|].
  split; [reflexivity|].
  intros -> -> -> -> Hjson. rewrite (convert_on_replies _ _ _ _ H).
  unfold ast_of_response. rewrite Hjson. reflexivity.
Qed.

(** C4.  Over one full run the journal of writes has one write of [ast],
    made by the parser, no write of [input_query], and two writes of
    [final_sql], by the translator and then the validator; the final state
    still holds the request and the parser's value.  On any state, the
    translator and the validator return a dict with the only key
    [final_sql] and leave [input_query] and [ast] as they were, and the
    parser returns a dict with the only key [ast]. *)
Theorem state_fields_written_by_their_stage (q r1 r2 r3 : string) :
  replies q r1 r2 r3 ->
  (exists sf journal,
      invoke_journal workflow (initial_state_of q) = Ok (sf, journal)
      /\ map fst (writes_of "ast" journal) = ["ParserAgent"]
      /\ writes_of "input_query" journal = []
      /\ map fst (writes_of "final_sql" journal)
         = ["TranslationAgent"; "SyntaxValidatorAgent"]
      /\ input_query sf = q
      /\ ast sf = ast_of_response r1)
  /\ (forall s u,
         parse_sql_to_ast s = Ok u ->
         written_keys u = ["ast"]
         /\ input_query (apply_update u s) = input_query s
         /\ final_sql (apply_update u s) = final_sql s)
  /\ (forall s u,
         translate_ast_to_ansi s = Ok u ->
         written_keys u = ["final_sql"]
         /\ input_query (apply_update u s) = input_query s
         /\ ast (apply_update u s) = ast s)
  /\ (forall s u,
         validate_ansi_sql s = Ok u ->
         written_keys u = ["final_sql"]
         /\ input_query (apply_update u s) = input_query s
         /\ ast (apply_update u s) = ast s).
Proof.
  intros H. split; [|split; [|split]].
  - exists (after_validate q r1 r3), (journal_of r1 r2 r3).
    split; [now apply invoke_on_replies|]. repeat split.
  - intros s u Hu. apply parse_inv in Hu as (r & _ & ->). repeat split.
  - intros s u Hu. apply translate_inv in Hu as (r & _ & ->). repeat split.
  - intros s u Hu. apply validate_inv in Hu as (r & _ & ->). repeat split.
Qed.

(** C5.  The validator replaces [final_sql] by its own stripped reply,
    with no test on the candidate: on any state, once the model has
    replied, the state after the validator's step holds the old
    [input_query], the old [ast] and the stripped reply, so the
    translator's text is gone from it.  Over a full run the final state and
    the returned text are built from the validator's reply alone. *)
Theorem validator_overwrites_final_sql (q r1 r2 r3 : string) :
  replies q r1 r2 r3 ->
  (forall state reply,
      llm_invoke (validate_messages state) = Ok reply ->
      step workflow "SyntaxValidatorAgent" state
      = Ok (END,
            {| input_query := input_query state;
               ast := ast state;
               final_sql := PyStr.strip reply |},
            update_final_sql (PyStr.strip reply)))
  /\ step workflow "SyntaxValidatorAgent" (after_translate q r1 r2)
     = Ok (END, after_validate q r1 r3, update_final_sql (PyStr.strip r3))
  /\ final_sql (after_validate q r1 r3) = PyStr.strip r3
  /\ app_invoke (initial_state_of q) = Ok (after_validate q r1 r3)
  /\ convert_snowflake_to_ansi q
     = Ok (PyStr.strip r3, [("AST", ast_of_response r1)]).
Proof.
  intros H.
  assert (Hstep : forall state reply,
             llm_invoke (validate_messages state) = Ok reply ->
             step workflow "SyntaxValidatorAgent" state
             = Ok (END,
                   {| input_query := input_query state;
                      ast := ast state;
                      final_sql := PyStr.strip reply |},
                   update_final_sql (PyStr.strip reply))).
  { intros state reply Hr.
    rewrite step_validator, (validate_on_reply _ _ Hr). reflexivity. }
  split; [exact Hstep|]. split; [|split; [reflexivity|split]].
  - destruct H as (_ & _ & H3). exact (Hstep _ _ H3).
  - unfold app_invoke. now rewrite (invoke_on_replies _ _ _ _ H).
  - exact (convert_on_replies _ _ _ _ H).
Qed.

(** C6, as amended.  The graph is a chain.  It starts at the parser; the
    parser's edge leads to the translator, the translator's to the
    validator, the validator's to [END]; the edge a step takes depends on
    the node alone, never on the state or on the dict the node returned.
    When the model answers the three calls the run makes exactly the steps
    parser, translator, validator.  Before the translator starts, stage 1
    has assigned [ast]: the value [json.loads] returned for the parser's
    reply, or the error document [{"error": str(e), "raw_response": reply}]
    when it raised [e]; that value is [None], the value the state started
    with, exactly when the reply decodes to JSON [null].  The run ends in a
    state whose [final_sql] was assigned by the validator and is its
    stripped reply.  Every run that returns is of this form. *)
Theorem workflow_is_a_chain (q r1 r2 r3 : string) :
  replies q r1 r2 r3 ->
  (entry_point workflow = Some "ParserAgent"
   /\ next_node workflow "ParserAgent" = "TranslationAgent"
   /\ next_node workflow "TranslationAgent" = "SyntaxValidatorAgent"
   /\ next_node workflow "SyntaxValidatorAgent" = END)
  /\ (forall cur s nxt s' u,
         step workflow cur s = Ok (nxt, s', u) ->
         nxt = next_node workflow cur /\ s' = apply_update u s)
  /\ (step workflow "ParserAgent" (initial_state_of q)
      = Ok ("TranslationAgent", after_parse q r1,
            update_ast (ast_of_response r1))
      /\ ast (after_parse q r1) = ast_of_response r1
      /\ step workflow "TranslationAgent" (after_parse q r1)
         = Ok ("SyntaxValidatorAgent", after_translate q r1 r2,
               update_final_sql (PyStr.strip r2))
      /\ step workflow "SyntaxValidatorAgent" (after_translate q r1 r2)
         = Ok (END, after_validate q r1 r3,
               update_final_sql (PyStr.strip r3))
      /\ invoke_journal workflow (initial_state_of q)
         = Ok (after_validate q r1 r3, journal_of r1 r2 r3)
      /\ final_sql (after_validate q r1 r3) = PyStr.strip r3)
  /\ (exists s1 u1,
         step workflow "ParserAgent" (initial_state_of q)
         = Ok ("TranslationAgent", s1, u1)
         /\ set_ast u1 = Some (ast s1)
         /\ input_query s1 = q
         /\ final_sql s1 = ""
         /\ (forall tree, json_loads r1 = Ok tree -> ast s1 = tree)
         /\ (forall e,
                json_loads r1 = Raise e ->
                ast s1 = VDict [("error", VStr (str_of_exn e));
                                ("raw_response", VStr r1)])
         /\ (ast s1 = VNone <-> json_loads r1 = Ok VNone))
  /\ (forall sf journal,
         invoke_journal workflow (initial_state_of q) = Ok (sf, journal) ->
         map fst journal
         = ["ParserAgent"; "TranslationAgent"; "SyntaxValidatorAgent"]
         /\ map fst (writes_of "ast" journal) = ["ParserAgent"]
         /\ map fst (writes_of "final_sql" journal)
            = ["TranslationAgent"; "SyntaxValidatorAgent"]
         /\ exists t1 t2 t3,
              replies q t1 t2 t3
              /\ input_query sf = q
              /\ final_sql sf = PyStr.strip t3
              /\ (forall tree, json_loads t1 = Ok tree -> ast sf = tree)
              /\ (forall e,
                     json_loads t1 = Raise e ->
                     ast sf = VDict [("error", VStr (str_of_exn e));
                                     ("raw_response", VStr t1)])
              /\ (ast sf = VNone <-> json_loads t1 = Ok VNone)).
Proof.
  intros H. split; [|split; [|split; [|split]]].
  - repeat split.
  - intros cur s nxt s' u. unfold step.
    destruct (assoc cur (nodes workflow)) as [fn|]; [|discriminate].
    destruct (fn s) as [u'|e]; cbn [bind]; [|discriminate].
    intros Heq; injection Heq as <- <- <-. now split.
  - pose proof H as (H1 & H2 & H3). repeat split.
    + rewrite step_parser, (parse_on_reply _ _ H1). reflexivity.
    + rewrite step_translator, (translate_on_reply _ _ H2). reflexivity.
    + rewrite step_validator, (validate_on_reply _ _ H3). reflexivity.
    + exact (invoke_on_replies _ _ _ _ H).
  - pose proof H as (H1 & _ & _).
    exists (after_parse q r1), (update_ast (ast_of_response r1)).
    split; [rewrite step_parser, (parse_on_reply _ _ H1); reflexivity|].
    split; [reflexivity|]. split; [reflexivity|]. split; [reflexivity|].
    exact (ast_of_response_cases r1).
  - intros sf journal Hrun.
    apply invoke_ok_inv in Hrun as (t1 & t2 & t3 & Ht & -> & ->).
    split; [reflexivity|]. split; [reflexivity|]. split; [reflexivity|].
    exists t1, t2, t3. split; [exact Ht|].
    split; [reflexivity|]. split; [reflexivity|].
    exact (ast_of_response_cases t1).
Qed.

(** C7, as amended.  When a model call of the run raises [e], the
    conversion raises [e]; the script then appends exactly one entry to the
    history, the dict with the three keys [question], [answer] and
    [intermediate], whose answer is ["Error: "] followed by [str(e)] and
    whose intermediate dict is empty, and it shows that text as an error
    and no SQL.  The entry has no field for the success flag. *)
Theorem failed_call_is_recorded_as_error_entry
  (history : list dict) (q : string) (e : exn) :
  first_failure q e ->
  convert_snowflake_to_ansi q = Raise e
  /\ on_question history q
     = ((history
         ++ [[("question", VStr q);
              ("answer", VStr ("Error: " ++ str_of_exn e));
              ("intermediate", VDict [])]])%list,
        [st_chat_message "user" [st_text (VStr q)];
         st_chat_message "assistant"
           [st_error (VStr ("Error: " ++ str_of_exn e))]])
  /\ dict_keys (chat_entry q ("Error: " ++ str_of_exn e) [])
     = ["question"; "answer"; "intermediate"]
  /\ dict_get "succeeded" (chat_entry q ("Error: " ++ str_of_exn e) [])
     = None.
Proof.
  intros H. apply convert_raise_iff in H.
  split; [assumption|]. split; [|split; reflexivity].
  unfold on_question, attempt. rewrite H. reflexivity.
Qed.

(** C8.  Each agent reads only its declared fields of the state: the
    parser's result is fixed by [input_query], the translator's by
    [input_query] and [ast], the validator's by [input_query] and
    [final_sql].  The conversion of a request does not read the session:
    whatever the stored history, the same request appends the same entry
    and shows the same widgets, so that a request made twice in a session
    records twice the same answer and the same [AST]. *)
Theorem conversion_depends_on_request_only :
  (forall s s',
      input_query s = input_query s' ->
      parse_sql_to_ast s = parse_sql_to_ast s')
  /\ (forall s s',
         input_query s = input_query s' ->
         ast s = ast s' ->
         translate_ast_to_ansi s = translate_ast_to_ansi s')
  /\ (forall s s',
         input_query s = input_query s' ->
         final_sql s = final_sql s' ->
         validate_ansi_sql s = validate_ansi_sql s')
  /\ (forall q history history',
         exists entry shown,
           on_question history q = ((history ++ [entry])%list, shown)
           /\ on_question history' q = ((history' ++ [entry])%list, shown)
           /\ dict_get "question" entry = Some (VStr q)
           /\ forall h1 shown1 h2 shown2,
                on_question history q = (h1, shown1) ->
                on_question h1 q = (h2, shown2) ->
                h2 = (history ++ [entry; entry])%list /\ shown2 = shown1).
Proof.
  split; [|split; [|split]].
  - intros s s' Hq. unfold parse_sql_to_ast, parse_messages. now rewrite Hq.
  - intros s s' Hq Ha.
    unfold translate_ast_to_ansi, translate_messages. now rewrite Hq, Ha.
  - intros s s' Hq Hf.
    unfold validate_ansi_sql, validate_messages. now rewrite Hq, Hf.
  - intros q history history'. unfold on_question.
    destruct (attempt q) as [[success ansi_result] intermediate_results].
    eexists; eexists. split; [reflexivity|]. split; [reflexivity|].
    split; [reflexivity|].
    intros h1 shown1 h2 shown2 H1 H2.
    injection H1 as <- <-. injection H2 as <- <-.
    split; [|reflexivity]. now rewrite <- app_assoc.
Qed.

(** C9.  The conversion has no guard on its argument.  For a request that
    is empty or made of whitespace only, when the model answers the three
    calls, the three agents still run in order and the conversion returns
    the validator's stripped reply. *)
Theorem convert_accepts_blank_request (q r1 r2 r3 : string) :
  PyStr.blank q = true ->
  replies q r1 r2 r3 ->
  convert_journal q
  = Ok [("ParserAgent", update_ast (ast_of_response r1));
        ("TranslationAgent", update_final_sql (PyStr.strip r2));
        ("SyntaxValidatorAgent", update_final_sql (PyStr.strip r3))]
  /\ convert_snowflake_to_ansi q
     = Ok (PyStr.strip r3, [("AST", ast_of_response r1)]).
Proof.
  intros _ H. split; [|exact (convert_on_replies _ _ _ _ H)].
  unfold convert_journal. now rewrite (invoke_on_replies _ _ _ _ H).
Qed.

End Claims.

(** C10.  A stored entry is the dict with the three keys [question],
    [answer], [intermediate] and nothing that records success.  On replay
    its answer is shown as an error if and only if the answer text contains
    ["Error"], and as SQL otherwise.  So a conversion that succeeds with
    [SELECT Error FROM log] is shown as SQL when it is made and as an error
    when the history is replayed. *)
Theorem replay_classifies_by_error_substring :
  (forall (E : Env) history q,
      exists answer intermediate,
        fst (on_question history q)
        = (history ++ [chat_entry q answer intermediate])%list
        /\ dict_keys (chat_entry q answer intermediate)
           = ["question"; "answer"; "intermediate"])
  /\ (forall q answer intermediate,
         exists steps,
           replay_chat (chat_entry q answer intermediate)
           = Ok [st_chat_message "user" [st_text (VStr q)];
                 st_chat_message "assistant"
                   ((if PyStr.contains "Error" answer
                     then st_error (VStr answer)
                     else st_code (VStr answer) "sql") :: steps)])
  /\ (forall answer,
         replay_answer (VStr answer) = st_error (VStr answer)
         <-> PyStr.contains "Error" answer = true)
  /\ (convert_snowflake_to_ansi (E := Stub.error_column)
        "select error from log"
      = Ok ("SELECT Error FROM log", [("AST", VList [])])
      /\ on_question (E := Stub.error_column) [] "select error from log"
         = ([chat_entry "select error from log"
               "SELECT Error FROM log" [("AST", VList [])]],
            [st_chat_message "user"
               [st_text (VStr "select error from log")];
             st_chat_message "assistant"
               [st_code (VStr "SELECT Error FROM log") "sql";
                st_expander "View Intermediate Steps" false
                  [st_subheader "AST Tree"; st_json (VList [])]]])
      /\ replay_history
           (fst (on_question (E := Stub.error_column) []
                   "select error from log"))
         = Ok [st_chat_message "user"
                 [st_text (VStr "select error from log")];
               st_chat_message "assistant"
                 [st_error (VStr "SELECT Error FROM log");
                  st_expander "View Intermediate Steps" false
                    [st_subheader "AST Tree"; st_json (VList [])]]]).
Proof.
  split; [|split; [|split]].
  - intros E history q. unfold on_question.
    destruct (attempt q) as [[success ansi_result] intermediate_results].
    exists ansi_result, intermediate_results. split; reflexivity.
  - intros q answer intermediate. unfold replay_chat, chat_entry.
    cbn [getitem dict_get dict_mem String.eqb Ascii.eqb Bool.eqb bind orb
         truthy dict_items].
    change ("question" =? "question") with true.
    change ("answer" =? "question") with false.
    change ("answer" =? "answer") with true.
    change ("intermediate" =? "question") with false.
    change ("intermediate" =? "answer") with false.
    change ("intermediate" =? "intermediate") with true.
    cbn [getitem dict_get dict_mem bind orb truthy dict_items].
    unfold replay_answer, is_error_answer.
    destruct intermediate; cbn [bind]; eexists; reflexivity.
  - intros answer. unfold replay_answer, is_error_answer.
    destruct (PyStr.contains "Error" answer); split;
      (reflexivity || discriminate).
  - repeat split.
Qed.

(* ================================================================== *)
(** * The properties on concrete runs *)

(** C1 on a run: the model replies the empty text to the parser; decoding
    fails, the parser returns the error document and the graph moves to the
    translator. *)
Lemma stage1_contains_decoding_failures_witness :
  @llm_invoke Stub.silent
    (parse_messages (E := Stub.silent) (initial_state_of "SELECT 1"))
  = Ok ""
  /\ parse_sql_to_ast (E := Stub.silent) (initial_state_of "SELECT 1")
     = Ok (update_ast
             (VDict [("error", VStr "Expecting value");
                     ("raw_response", VStr "")]))
  /\ step (workflow (E := Stub.silent)) "ParserAgent"
       (initial_state_of "SELECT 1")
     = Ok ("TranslationAgent",
           {| input_query := "SELECT 1";
              ast := VDict [("error", VStr "Expecting value");
                            ("raw_response", VStr "")];
              final_sql := "" |},
           update_ast
             (VDict [("error", VStr "Expecting value");
                     ("raw_response", VStr "")])).
Proof.
  split; [reflexivity|].
  destruct (stage1_contains_decoding_failures (E := Stub.silent)
              (initial_state_of "SELECT 1") "" eq_refl) as (_ & Hp & Hs).
  split; [exact Hp | exact Hs].
Defined.


(** C3 on the scenario of the specification. *)
Lemma convert_returns_sql_and_ast_artifact_witness :
  replies (E := Stub.scenario) "SELECT a ILIKE 'x'"
    Stub.scenario_ast_text
    "SELECT LOWER(a) LIKE LOWER('x')" "SELECT LOWER(a) LIKE LOWER('x')"
  /\ @json_loads Stub.scenario Stub.scenario_ast_text
     = Ok (VDict [("type", VStr "select_statement")])
  /\ convert_snowflake_to_ansi (E := Stub.scenario) "SELECT a ILIKE 'x'"
     = Ok ("SELECT LOWER(a) LIKE LOWER('x')",
           [("AST", VDict [("type", VStr "select_statement")])]).
Proof.
  assert (Hr : replies (E := Stub.scenario) "SELECT a ILIKE 'x'"
                 Stub.scenario_ast_text
                 "SELECT LOWER(a) LIKE LOWER('x')"
                 "SELECT LOWER(a) LIKE LOWER('x')")
    by (repeat split).
  split; [exact Hr|]. split; [reflexivity|].
  destruct (convert_returns_sql_and_ast_artifact (E := Stub.scenario)
              _ _ _ _ Hr) as (_ & _ & Hscenario).
  exact (Hscenario eq_refl eq_refl eq_refl eq_refl eq_refl).
Defined.

(** C4 on the scenario: the journal of the run. *)
Lemma state_fields_written_by_their_stage_witness :
  replies (E := Stub.scenario) "SELECT a ILIKE 'x'"
    Stub.scenario_ast_text Stub.scenario_sql Stub.scenario_sql
  /\ exists sf journal,
       invoke_journal (workflow (E := Stub.scenario))
         (initial_state_of "SELECT a ILIKE 'x'") = Ok (sf, journal)
       /\ map fst (writes_of "ast" journal) = ["ParserAgent"]
       /\ writes_of "input_query" journal = []
       /\ input_query sf = "SELECT a ILIKE 'x'"
       /\ ast sf = VDict [("type", VStr "select_statement")].
Proof.
  assert (Hr : replies (E := Stub.scenario) "SELECT a ILIKE 'x'"
                 Stub.scenario_ast_text Stub.scenario_sql Stub.scenario_sql)
    by (repeat split).
  split; [exact Hr|].
  destruct (state_fields_written_by_their_stage (E := Stub.scenario)
              _ _ _ _ Hr)
    as ((sf & journal & Hrun & Hast & Hq & _ & Hin & Hsf) & _).
  exists sf, journal. repeat split; assumption.
Defined.

(** C5 on a run in which the validator rewrites the translator's text. *)
Lemma validator_overwrites_final_sql_witness :
  let E := Stub.scripted (Ok "{}") (Ok " SELECT TOP 1 a FROM t ")
             (Ok "SELECT a FROM t FETCH FIRST 1 ROWS ONLY ") in
  replies "SELECT a FROM t LIMIT 1" "{}" " SELECT TOP 1 a FROM t "
    "SELECT a FROM t FETCH FIRST 1 ROWS ONLY "
  /\ app_invoke (initial_state_of "SELECT a FROM t LIMIT 1")
     = Ok {| input_query := "SELECT a FROM t LIMIT 1";
             ast := VDict [];
             final_sql := "SELECT a FROM t FETCH FIRST 1 ROWS ONLY" |}.
Proof.
  intros E.
  assert (Hr : replies "SELECT a FROM t LIMIT 1" "{}"
                 " SELECT TOP 1 a FROM t "
                 "SELECT a FROM t FETCH FIRST 1 ROWS ONLY ")
    by (repeat split).
  split; [exact Hr|].
  destruct (validator_overwrites_final_sql _ _ _ _ Hr)
    as (_ & _ & _ & Hrun & _).
  exact Hrun.
Defined.

(** C6 fails on the code as it was stated: the parser's reply is the JSON
    text [null], which decodes to [None]; the three calls return, and the
    translator starts from a state equal to the initial one, with [ast]
    still [None]. *)
Lemma null_reply_leaves_ast_none :
  replies (E := Stub.null_reply) "SELECT 1" "null" "SELECT 1" "SELECT 1"
  /\ @json_loads Stub.null_reply "null" = Ok VNone
  /\ step (workflow (E := Stub.null_reply)) "ParserAgent"
       (initial_state_of "SELECT 1")
     = Ok ("TranslationAgent", initial_state_of "SELECT 1", update_ast VNone)
  /\ ast (initial_state_of "SELECT 1") = VNone
  /\ convert_snowflake_to_ansi (E := Stub.null_reply) "SELECT 1"
     = Ok ("SELECT 1", [("AST", VNone)])
  /\ ~ (forall (E : Env) (q r1 r2 r3 : string),
           replies q r1 r2 r3 ->
           exists s1 u1,
             step workflow "ParserAgent" (initial_state_of q)
             = Ok ("TranslationAgent", s1, u1)
             /\ ast s1 <> VNone).
Proof.
  assert (Hr : replies (E := Stub.null_reply)
                 "SELECT 1" "null" "SELECT 1" "SELECT 1")
    by (repeat split).
  split; [exact Hr|]. repeat (split; [reflexivity|]).
  intros H. destruct (H Stub.null_reply _ _ _ _ Hr) as (s1 & u1 & Hs & Hn).
  apply Hn.
  change (step (workflow (E := Stub.null_reply)) "ParserAgent"
            (initial_state_of "SELECT 1"))
    with (Ok ("TranslationAgent", initial_state_of "SELECT 1",
              update_ast VNone)) in Hs.
  now injection Hs as <- _.
Qed.

(** C6, as amended, on the scenario: the three steps of the run, and the
    value the translator starts from. *)
Lemma workflow_is_a_chain_witness :
  replies (E := Stub.scenario) "SELECT a ILIKE 'x'"
    Stub.scenario_ast_text Stub.scenario_sql Stub.scenario_sql
  /\ convert_journal (E := Stub.scenario) "SELECT a ILIKE 'x'"
     = Ok [("ParserAgent",
            update_ast (VDict [("type", VStr "select_statement")]));
           ("TranslationAgent",
            update_final_sql "SELECT LOWER(a) LIKE LOWER('x')");
           ("SyntaxValidatorAgent",
            update_final_sql "SELECT LOWER(a) LIKE LOWER('x')")]
  /\ exists s1 u1,
       step (workflow (E := Stub.scenario)) "ParserAgent"
         (initial_state_of "SELECT a ILIKE 'x'")
       = Ok ("TranslationAgent", s1, u1)
       /\ ast s1 = VDict [("type", VStr "select_statement")].
Proof.
  assert (Hr : replies (E := Stub.scenario) "SELECT a ILIKE 'x'"
                 Stub.scenario_ast_text Stub.scenario_sql Stub.scenario_sql)
    by (repeat split).
  split; [exact Hr|].
  destruct (workflow_is_a_chain (E := Stub.scenario) _ _ _ _ Hr)
    as (_ & _ & (_ & _ & _ & _ & Hrun & _)
        & (s1 & u1 & Hstep & _ & _ & _ & Htree & _) & _).
  split.
  - unfold convert_journal. rewrite Hrun. reflexivity.
  - exists s1, u1. split; [exact Hstep|]. apply Htree. reflexivity.
Defined.

(** C7 fails on the code: the model cannot be reached, and the entry that
    is stored has three fields, none of them a flag. *)
Lemma failed_request_entry_has_no_success_flag :
  first_failure (E := Stub.unreachable) "SELECT 1"
    (Exception "Connection error.")
  /\ fst (on_question (E := Stub.unreachable) [] "SELECT 1")
     = [[("question", VStr "SELECT 1");
         ("answer", VStr "Error: Connection error.");
         ("intermediate", VDict [])]]
  /\ ~ (exists entry key b,
           fst (on_question (E := Stub.unreachable) [] "SELECT 1") = [entry]
           /\ dict_get key entry = Some (VBool b)).
Proof.
  split; [now left|]. split; [reflexivity|].
  intros (entry & key & b & Hentry & Hget).
  change (fst (on_question (E := Stub.unreachable) [] "SELECT 1"))
    with [[("question", VStr "SELECT 1");
           ("answer", VStr "Error: Connection error.");
           ("intermediate", VDict [])]] in Hentry.
  injection Hentry as <-. cbn [dict_get] in Hget.
  destruct (key =? "question"); [discriminate|].
  destruct (key =? "answer"); [discriminate|].
  destruct (key =? "intermediate"); discriminate.
Qed.

(** C7, as amended, on that run. *)
Lemma failed_call_is_recorded_as_error_entry_witness :
  first_failure (E := Stub.unreachable) "SELECT 1"
    (Exception "Connection error.")
  /\ on_question (E := Stub.unreachable) [] "SELECT 1"
     = ([[("question", VStr "SELECT 1");
          ("answer", VStr "Error: Connection error.");
          ("intermediate", VDict [])]],
        [st_chat_message "user" [st_text (VStr "SELECT 1")];
         st_chat_message "assistant"
           [st_error (VStr "Error: Connection error.")]]).
Proof.
  assert (Hf : first_failure (E := Stub.unreachable) "SELECT 1"
                 (Exception "Connection error."))
    by (now left).
  split; [exact Hf|].
  destruct (failed_call_is_recorded_as_error_entry (E := Stub.unreachable)
              [] "SELECT 1" _ Hf) as (_ & Hentry & _).
  exact Hentry.
Defined.

(** C8 on the echoing model: two states with the same request and
    different other fields give the parser the same result. *)
Lemma conversion_depends_on_request_only_witness :
  parse_sql_to_ast (E := Stub.echo)
    {| input_query := "SELECT 1"; ast := VNone; final_sql := "" |}
  = parse_sql_to_ast (E := Stub.echo)
      {| input_query := "SELECT 1"; ast := VInt 7; final_sql := "x" |}.
Proof.
  destruct (conversion_depends_on_request_only (E := Stub.echo))
    as (Hparse & _).
  apply Hparse. reflexivity.
Defined.

(** C9 on the empty request. *)
Lemma convert_accepts_blank_request_witness :
  PyStr.blank "" = true
  /\ replies (E := Stub.scenario) ""
       Stub.scenario_ast_text Stub.scenario_sql Stub.scenario_sql
  /\ convert_snowflake_to_ansi (E := Stub.scenario) ""
     = Ok ("SELECT LOWER(a) LIKE LOWER('x')",
           [("AST", VDict [("type", VStr "select_statement")])]).
Proof.
  assert (Hr : replies (E := Stub.scenario) ""
                 Stub.scenario_ast_text Stub.scenario_sql Stub.scenario_sql)
    by (repeat split).
  split; [reflexivity|]. split; [exact Hr|].
  destruct (convert_accepts_blank_request (E := Stub.scenario)
              "" _ _ _ eq_refl Hr) as (_ & Hconv).
  exact Hconv.
Defined.

(** A reply that is the JSON text [null] decodes to [None]: stage 1 then
    stores [None] in [ast], the value the state started with. *)
Example parser_may_store_none :
  app_invoke (E := Stub.scripted (Ok "null") (Ok "SELECT 1") (Ok "SELECT 1"))
    (initial_state_of "SELECT 1")
  = Ok {| input_query := "SELECT 1"; ast := VNone; final_sql := "SELECT 1" |}.
Proof. reflexivity. Qed.

(** The echoing model: every field of the result comes from the request. *)
Example echo_run_structured_form :
  match convert_snowflake_to_ansi (E := Stub.echo) "SELECT 1" with
  | Ok (_, artifacts) =>
      dict_get "AST" artifacts
      = Some (VDict [("error", VStr "Expecting value");
                     ("raw_response",
                      VStr ("SQL to parse:" ++ PyStr.nl ++ "SELECT 1"))])
  | Raise _ => False
  end.
Proof. reflexivity. Qed.

(* ================================================================== *)
(** * Further properties of the script *)

Module MoreStrFacts.
Import PyStr.

Lemma append_empty_r (s : string) : s ++ "" = s.
Proof. induction s as [|c s IH]; simpl; [reflexivity | now rewrite IH]. Qed.

Lemma append_assoc (a b c : string) : (a ++ b) ++ c = a ++ b ++ c.
Proof. induction a as [|x a IH]; simpl; [reflexivity | now rewrite IH]. Qed.

(** A piece of a concatenation occurs in it. *)
Lemma contains_middle (a needle b : string) :
  contains needle (a ++ needle ++ b) = true.
Proof. apply PyStrFacts.contains_iff_occurs. now exists a, b. Qed.

Lemma contains_end (a needle : string) : contains needle (a ++ needle) = true.
Proof.
  rewrite <- (append_empty_r needle) at 2. apply contains_middle.
Qed.

(** What [rstrip] returns ends with no whitespace. *)
Lemma rstrip_last (s pre : string) (c : ascii) :
  rstrip s = pre ++ String c "" -> isspace c = false.
Proof.
  revert pre; induction s as [|a s IH]; intros pre; simpl.
  - destruct pre; discriminate.
  - destruct (rstrip s) as [|b r] eqn:Hr.
    + destruct (isspace a) eqn:Ha.
      * destruct pre; discriminate.
      * destruct pre as [|x pre]; simpl; intros H.
        -- injection H as <-. exact Ha.
        -- injection H as _ H. destruct pre; discriminate.
    + destruct pre as [|x pre]; simpl; intros H.
      * discriminate.
      * injection H as _ H. exact (IH pre H).
Qed.

Lemma strip_last (s pre : string) (c : ascii) :
  strip s = pre ++ String c "" -> isspace c = false.
Proof. unfold strip. apply rstrip_last. Qed.

(** The text of a failed request is classified as an error. *)
Lemma error_text_contains_error (m : string) :
  contains "Error" ("Error: " ++ m) = true.
Proof. exact (contains_middle "" "Error" (": " ++ m)). Qed.

End MoreStrFacts.

Lemma dict_mem_get (k : string) (d : dict) :
  dict_mem k d = match dict_get k d with Some _ => true | None => false end.
Proof.
  induction d as [|[k' v] d IH]; simpl; [reflexivity|].
  destruct (k =? k'); simpl; [reflexivity | exact IH].
Qed.

Lemma replay_chat_entry (q a : string) (i : dict) :
  replay_chat (chat_entry q a i) = Ok (replayed_entry q a i).
Proof.
  unfold replay_chat, chat_entry, replayed_entry, getitem.
  change (dict_get "question" _) with (Some (VStr q)).
  change (dict_get "answer" _) with (Some (VStr a)).
  change (dict_get "intermediate" _) with (Some (VDict i)).
  change (dict_mem "intermediate" _) with true.
  cbn [bind]. destruct i; reflexivity.
Qed.

Section ScriptFacts.
Context {E : Env}.

Lemma on_question_entry (history : list dict) (q : string) :
  fst (on_question history q) = (history ++ [entry_of q])%list.
Proof.
  unfold on_question, entry_of.
  destruct (attempt q) as [[success ansi_result] intermediate_results].
  reflexivity.
Qed.

Lemma entry_of_made_by_script (q : string) : made_by_script (entry_of q).
Proof.
  unfold entry_of.
  destruct (attempt q) as [[success ansi_result] intermediate_results].
  now exists q, ansi_result, intermediate_results.
Qed.

Lemma replay_history_made_by_script (history : list dict) :
  Forall made_by_script history ->
  exists page,
    replay_history history = Ok page /\ length page = 2 * length history.
Proof.
  induction 1 as [|chat rest (q & a & i & ->) _ (page & Hpage & Hlen)].
  - now exists [].
  - exists (replayed_entry q a i ++ page)%list. cbn [replay_history].
    rewrite replay_chat_entry, Hpage. cbn [bind]. split; [reflexivity|].
    rewrite length_app, Hlen. cbn [replayed_entry length]. lia.
Qed.

(** X1.  The text a conversion returns is stripped: stripping it again
    gives the same text, its first character is not whitespace and its last
    character is not whitespace. *)
Theorem convert_result_is_stripped (q out : string) (artifacts : dict) :
  convert_snowflake_to_ansi q = Ok (out, artifacts) ->
  PyStr.strip out = out
  /\ (forall c rest, out = String c rest -> PyStr.isspace c = false)
  /\ (forall pre c, out = pre ++ String c "" -> PyStr.isspace c = false).
Proof.
  intros H. apply convert_ok_inv in H as (r1 & r2 & r3 & _ & -> & _).
  split; [apply PyStrFacts.strip_idempotent|]. split.
  - intros c rest Hout. pose proof (PyStrFacts.strip_head r3) as Hhead.
    now rewrite Hout in Hhead.
  - intros pre c Hout. exact (MoreStrFacts.strip_last _ _ _ Hout).
Qed.

(** X2.  When the validator replies with the candidate it was shown, the
    conversion returns that candidate: the second [strip] changes
    nothing. *)
Theorem validator_echo_returns_candidate (q r1 r2 r3 : string) :
  replies q r1 r2 r3 ->
  r3 = final_sql (after_translate q r1 r2) ->
  convert_snowflake_to_ansi q
  = Ok (final_sql (after_translate q r1 r2), [("AST", ast_of_response r1)]).
Proof.
  intros H Hecho. rewrite (convert_on_replies _ _ _ _ H), Hecho.
  cbn [after_translate final_sql]. now rewrite PyStrFacts.strip_idempotent.
Qed.

(** X3.  A conversion calls the model with exactly three message lists,
    each a system message with the agent's prompt and one user message: the
    parser's is ["SQL to parse:\n"] and the request; the translator's is
    the request under ["Original Snowflake SQL:\n"] and, under ["AST:\n"],
    [json.dumps] of the value stage 1 stored; the validator's is the request
    again and, under ["ANSI SQL:\n"], the translator's stripped reply.  If
    these calls return [r1], [r2], [r3], the conversion returns the stripped
    [r3] and the stage-1 value; if the conversion returns, these calls
    returned; if the first of them raises, the conversion raises the same
    exception.  The request occurs unchanged in all three user messages. *)
Theorem every_call_carries_the_request (q : string) :
  let parser_call :=
    [{| role := "system"; content := parse_system_prompt |};
     {| role := "user"; content := "SQL to parse:" ++ PyStr.nl ++ q |}] in
  let translator_call := fun r1 =>
    [{| role := "system"; content := translate_system_prompt |};
     {| role := "user";
        content := "Original Snowflake SQL:" ++ PyStr.nl
                   ++ q ++ PyStr.nl ++ PyStr.nl
                   ++ "AST:" ++ PyStr.nl
                   ++ json_dumps (ast_of_response r1) |}] in
  let validator_call := fun r2 =>
    [{| role := "system"; content := validate_system_prompt |};
     {| role := "user";
        content := "Original Snowflake SQL:" ++ PyStr.nl
                   ++ q ++ PyStr.nl ++ PyStr.nl
                   ++ "ANSI SQL:" ++ PyStr.nl
                   ++ PyStr.strip r2 |}] in
  (forall r1 r2 r3,
      llm_invoke parser_call = Ok r1 ->
      llm_invoke (translator_call r1) = Ok r2 ->
      llm_invoke (validator_call r2) = Ok r3 ->
      convert_snowflake_to_ansi q
      = Ok (PyStr.strip r3, [("AST", ast_of_response r1)]))
  /\ (forall out artifacts,
         convert_snowflake_to_ansi q = Ok (out, artifacts) ->
         exists r1 r2 r3,
           llm_invoke parser_call = Ok r1
           /\ llm_invoke (translator_call r1) = Ok r2
           /\ llm_invoke (validator_call r2) = Ok r3
           /\ out = PyStr.strip r3
           /\ artifacts = [("AST", ast_of_response r1)])
  /\ (forall e,
         llm_invoke parser_call = Raise e ->
         convert_snowflake_to_ansi q = Raise e)
  /\ (forall r1 e,
         llm_invoke parser_call = Ok r1 ->
         llm_invoke (translator_call r1) = Raise e ->
         convert_snowflake_to_ansi q = Raise e)
  /\ (forall r1 r2 e,
         llm_invoke parser_call = Ok r1 ->
         llm_invoke (translator_call r1) = Ok r2 ->
         llm_invoke (validator_call r2) = Raise e ->
         convert_snowflake_to_ansi q = Raise e)
  /\ (forall r1 r2 sys usr,
         In [sys; usr] [parser_call; translator_call r1; validator_call r2] ->
         role sys = "system" /\ role usr = "user"
         /\ PyStr.contains q (content usr) = true).
Proof.
  intros parser_call translator_call validator_call.
  split; [|split; [|split; [|split; [|split]]]].
  - intros r1 r2 r3 H1 H2 H3.
    exact (convert_on_replies q r1 r2 r3 (conj H1 (conj H2 H3))).
  - intros out artifacts H.
    apply convert_ok_inv in H as (r1 & r2 & r3 & (H1 & H2 & H3) & Hout & Ha).
    exists r1, r2, r3. repeat split; assumption.
  - intros e H. apply convert_raise_iff. left. exact H.
  - intros r1 e H1 H2. apply convert_raise_iff. right; left.
    exists r1. split; assumption.
  - intros r1 r2 e H1 H2 H3. apply convert_raise_iff. right; right.
    exists r1, r2. repeat split; assumption.
  - subst parser_call translator_call validator_call.
    intros r1 r2 sys usr [H | [H | [H | []]]];
      injection H as <- <-; cbn [role content];
      (split; [reflexivity|]); (split; [reflexivity|]).
    + change (PyStr.contains q (("SQL to parse:" ++ PyStr.nl) ++ q) = true).
      apply MoreStrFacts.contains_end.
    + change (PyStr.contains q
                (("Original Snowflake SQL:" ++ PyStr.nl) ++ q
                 ++ (PyStr.nl ++ PyStr.nl ++ "AST:" ++ PyStr.nl
                     ++ json_dumps (ast_of_response r1))) = true).
      apply MoreStrFacts.contains_middle.
    + change (PyStr.contains q
                (("Original Snowflake SQL:" ++ PyStr.nl) ++ q
                 ++ (PyStr.nl ++ PyStr.nl ++ "ANSI SQL:" ++ PyStr.nl
                     ++ PyStr.strip r2)) = true).
      apply MoreStrFacts.contains_middle.
Qed.

(** X4.  A reply of the parser that does not decode does not abort the
    conversion: when the three calls return and [json.loads] raises [e] on
    the first reply, the conversion returns the validator's stripped reply,
    the artifact under ["AST"] is the error document with the reply
    unchanged, and the page shows that document in the expander. *)
Theorem undecodable_reply_does_not_abort
  (history : list dict) (q r1 r2 r3 : string) (e : exn) :
  replies q r1 r2 r3 ->
  json_loads r1 = Raise e ->
  convert_snowflake_to_ansi q
  = Ok (PyStr.strip r3,
        [("AST", VDict [("error", VStr (str_of_exn e));
                        ("raw_response", VStr r1)])])
  /\ snd (on_question history q)
     = [st_chat_message "user" [st_text (VStr q)];
        st_chat_message "assistant"
          [st_code (VStr (PyStr.strip r3)) "sql";
           st_expander "View Intermediate Steps" false
             [st_subheader "AST Tree";
              st_json (VDict [("error", VStr (str_of_exn e));
                              ("raw_response", VStr r1)])]]].
Proof.
  intros H Hjson.
  assert (Hc : convert_snowflake_to_ansi q
               = Ok (PyStr.strip r3,
                     [("AST", VDict [("error", VStr (str_of_exn e));
                                     ("raw_response", VStr r1)])])).
  { rewrite (convert_on_replies _ _ _ _ H). unfold ast_of_response.
    now rewrite Hjson. }
  split; [exact Hc|]. unfold on_question, attempt. rewrite Hc. reflexivity.
Qed.

(** X5.  A failed request is replayed as it was shown: the stored entry
    is replayed as an error with the text ["Error: "] followed by the
    message, with no expander, which is the page of the run that failed. *)
Theorem failed_request_replays_as_shown
  (history : list dict) (q : string) (e : exn) :
  convert_snowflake_to_ansi q = Raise e ->
  replay_chat (entry_of q) = Ok (snd (on_question history q))
  /\ replay_chat (entry_of q)
     = Ok [st_chat_message "user" [st_text (VStr q)];
           st_chat_message "assistant"
             [st_error (VStr ("Error: " ++ str_of_exn e))]].
Proof.
  intros H. unfold entry_of, on_question, attempt. rewrite H.
  rewrite replay_chat_entry. unfold replayed_entry, replay_answer.
  cbn [is_error_answer]. rewrite MoreStrFacts.error_text_contains_error.
  split; reflexivity.
Qed.

(** X6.  A successful request always shows the SQL and the expander with
    the [AST] value, whatever that value is.  If the SQL does not contain
    ["Error"], the stored entry is replayed as the same page. *)
Theorem successful_request_page_and_replay
  (history : list dict) (q out : string) (artifacts : dict) :
  convert_snowflake_to_ansi q = Ok (out, artifacts) ->
  exists tree,
    artifacts = [("AST", tree)]
    /\ snd (on_question history q)
       = [st_chat_message "user" [st_text (VStr q)];
          st_chat_message "assistant"
            [st_code (VStr out) "sql";
             st_expander "View Intermediate Steps" false
               [st_subheader "AST Tree"; st_json tree]]]
    /\ (PyStr.contains "Error" out = false ->
        replay_chat (entry_of q) = Ok (snd (on_question history q))).
Proof.
  intros H. pose proof H as Hinv.
  apply convert_ok_inv in Hinv as (r1 & r2 & r3 & _ & Hout & Hart).
  exists (ast_of_response r1). split; [exact Hart|].
  unfold entry_of, on_question, attempt. rewrite H. subst artifacts.
  split; [reflexivity|]. intros Hno.
  rewrite replay_chat_entry. unfold replayed_entry, replay_answer.
  cbn [is_error_answer]. rewrite Hno. reflexivity.
Qed.

End ScriptFacts.

(** X7.  The replay of one entry raises exactly when the entry has no
    [question], or no [answer], or an [intermediate] value that is truthy
    and not a dict.  An entry without the key [intermediate], or with an
    empty one, is replayed without an expander. *)
Theorem replay_chat_raises_iff (chat : dict) :
  raised (replay_chat chat) = true
  <-> dict_get "question" chat = None
      \/ dict_get "answer" chat = None
      \/ (exists v,
             dict_get "intermediate" chat = Some v
             /\ truthy v = true
             /\ forall d, v <> VDict d).
Proof.
  unfold replay_chat, getitem. rewrite dict_mem_get.
  destruct (dict_get "question" chat) as [qv|]; cbn [bind raised];
    [|split; [intros _; now left | reflexivity]].
  destruct (dict_get "answer" chat) as [av|]; cbn [bind raised];
    [|split; [intros _; right; now left | reflexivity]].
  destruct (dict_get "intermediate" chat) as [iv|]; cbn [bind raised].
  - destruct (truthy iv) eqn:Ht; cbn [bind raised].
    + destruct iv; cbn [dict_items bind raised];
        try (split;
             [intros _; right; right; eexists; split; [reflexivity|];
              split; [exact Ht | discriminate]
             | reflexivity]).
      split; [discriminate|].
      intros [H | [H | (v & Hv & _ & Hnot)]]; try discriminate.
      injection Hv as <-. now destruct (Hnot entries).
    + split; [discriminate|].
      intros [H | [H | (v & Hv & Hv' & _)]]; try discriminate.
      injection Hv as <-. congruence.
  - split; [discriminate|].
    intros [H | [H | (v & Hv & _)]]; discriminate.
Qed.

(** X8.  The replay of a history made of script entries never raises and
    shows, for each entry in order, the user's question and then the
    assistant's answer. *)
Theorem replay_of_script_history (triples : list (string * string * dict)) :
  replay_history
    (map (fun t => let '(q, a, i) := t in chat_entry q a i) triples)
  = Ok (flat_map (fun t => let '(q, a, i) := t in replayed_entry q a i)
          triples).
Proof.
  induction triples as [|[[q a] i] rest IH]; [reflexivity|].
  cbn [map flat_map replay_history].
  rewrite replay_chat_entry, IH. reflexivity.
Qed.

Section SessionFacts.
Context {E : Env}.

(** X9.  Over any number of runs of the script the history is append-only
    and never makes the replay raise: starting from a history of script
    entries, a session ends with that history followed by one entry per
    submitted question, in the order of submission; an absent or empty chat
    input adds nothing. *)
Theorem session_records_submitted_questions
  (history : list dict) (inputs : list (option string)) :
  Forall made_by_script history ->
  session history inputs
  = Ok (history ++ map entry_of (submitted inputs))%list.
Proof.
  revert history; induction inputs as [|input rest IH]; intros history Hh.
  - cbn [session submitted flat_map map]. now rewrite app_nil_r.
  - cbn [session]. unfold script_run.
    destruct (replay_history_made_by_script history Hh) as (page & -> & _).
    cbn [bind].
    assert (Hskip : session history rest
                    = Ok (history ++ map entry_of (submitted rest))%list)
      by (now apply IH).
    destruct input as [q|]; [|exact Hskip].
    unfold submitted. cbn [flat_map]. fold (submitted rest).
    destruct (PyStr.nonempty q); [|exact Hskip].
    pose proof (on_question_entry history q) as Hentry.
    destruct (on_question history q) as [history' shown].
    cbn [fst] in *. subst history'. cbn [bind fst].
    rewrite IH.
    + cbn [app map]. now rewrite <- app_assoc.
    + apply Forall_app. split; [exact Hh|].
      constructor; [apply entry_of_made_by_script | constructor].
Qed.

End SessionFacts.

(** X1 on a run: the validator's reply is padded, the result is not. *)
Lemma convert_result_is_stripped_witness :
  let E := Stub.scripted (Ok "[]") (Ok "SELECT 1")
             (Ok ("  SELECT 1 ;" ++ PyStr.nl)) in
  convert_snowflake_to_ansi "SELECT 1" = Ok ("SELECT 1 ;", [("AST", VList [])])
  /\ PyStr.strip "SELECT 1 ;" = "SELECT 1 ;".
Proof.
  intros E. split; [reflexivity|].
  destruct (convert_result_is_stripped (E := E) "SELECT 1" "SELECT 1 ;"
              [("AST", VList [])] eq_refl) as (Hstrip & _).
  exact Hstrip.
Defined.

(** X2 on a run: the validator echoes the stripped candidate. *)
Lemma validator_echo_returns_candidate_witness :
  let E := Stub.scripted (Ok "[]") (Ok " SELECT 1 ") (Ok "SELECT 1") in
  replies "SELECT 1" "[]" " SELECT 1 " "SELECT 1"
  /\ convert_snowflake_to_ansi "SELECT 1"
     = Ok ("SELECT 1", [("AST", VList [])]).
Proof.
  intros E.
  assert (Hr : replies "SELECT 1" "[]" " SELECT 1 " "SELECT 1")
    by (repeat split).
  split; [exact Hr|].
  exact (validator_echo_returns_candidate _ _ _ _ Hr eq_refl).
Defined.

(** X3 on the scenario of the specification: the three calls, spelled
    out, and the result. *)
Lemma every_call_carries_the_request_witness :
  @llm_invoke Stub.scenario
    [{| role := "system"; content := Stub.parse_prompt |};
     {| role := "user";
        content := "SQL to parse:" ++ PyStr.nl ++ "SELECT a ILIKE 'x'" |}]
  = Ok Stub.scenario_ast_text
  /\ convert_snowflake_to_ansi (E := Stub.scenario) "SELECT a ILIKE 'x'"
     = Ok ("SELECT LOWER(a) LIKE LOWER('x')",
           [("AST", VDict [("type", VStr "select_statement")])]).
Proof.
  split; [reflexivity|].
  destruct (every_call_carries_the_request (E := Stub.scenario)
              "SELECT a ILIKE 'x'") as (Hrun & _).
  exact (Hrun Stub.scenario_ast_text Stub.scenario_sql Stub.scenario_sql
           eq_refl eq_refl eq_refl).
Defined.

(** X4 on a run: the parser's reply is SQL, not JSON. *)
Lemma undecodable_reply_does_not_abort_witness :
  let E := Stub.scripted (Ok "SELECT 1") (Ok "SELECT 1") (Ok "SELECT 1") in
  replies "SELECT 1" "SELECT 1" "SELECT 1" "SELECT 1"
  /\ json_loads "SELECT 1" = Raise (Exception "Expecting value")
  /\ convert_snowflake_to_ansi "SELECT 1"
     = Ok ("SELECT 1",
           [("AST", VDict [("error", VStr "Expecting value");
                           ("raw_response", VStr "SELECT 1")])]).
Proof.
  intros E.
  assert (Hr : replies "SELECT 1" "SELECT 1" "SELECT 1" "SELECT 1")
    by (repeat split).
  split; [exact Hr|]. split; [reflexivity|].
  destruct (undecodable_reply_does_not_abort [] _ _ _ _
              (Exception "Expecting value") Hr eq_refl) as (Hc & _).
  exact Hc.
Defined.

(** X5 on the unreachable model. *)
Lemma failed_request_replays_as_shown_witness :
  convert_snowflake_to_ansi (E := Stub.unreachable) "SELECT 1"
  = Raise (Exception "Connection error.")
  /\ replay_chat (entry_of (E := Stub.unreachable) "SELECT 1")
     = Ok [st_chat_message "user" [st_text (VStr "SELECT 1")];
           st_chat_message "assistant"
             [st_error (VStr "Error: Connection error.")]].
Proof.
  split; [reflexivity|].
  destruct (failed_request_replays_as_shown (E := Stub.unreachable)
              [] "SELECT 1" (Exception "Connection error.") eq_refl)
    as (_ & Hreplay).
  exact Hreplay.
Defined.

(** X6 on the scenario of the specification. *)
Lemma successful_request_page_and_replay_witness :
  convert_snowflake_to_ansi (E := Stub.scenario) "SELECT a ILIKE 'x'"
  = Ok ("SELECT LOWER(a) LIKE LOWER('x')",
        [("AST", VDict [("type", VStr "select_statement")])])
  /\ replay_chat (entry_of (E := Stub.scenario) "SELECT a ILIKE 'x'")
     = Ok (snd (on_question (E := Stub.scenario) [] "SELECT a ILIKE 'x'")).
Proof.
  split; [reflexivity|].
  destruct (successful_request_page_and_replay (E := Stub.scenario)
              [] "SELECT a ILIKE 'x'" "SELECT LOWER(a) LIKE LOWER('x')"
              [("AST", VDict [("type", VStr "select_statement")])] eq_refl)
    as (tree & _ & _ & Hreplay).
  exact (Hreplay eq_refl).
Defined.

(** X9 on a session of four interactions, two of them without a
    question. *)
Lemma session_records_submitted_questions_witness :
  Forall made_by_script []
  /\ session (E := Stub.unreachable) []
       [Some "SELECT 1"; None; Some ""; Some "SELECT 2"]
     = Ok [[("question", VStr "SELECT 1");
            ("answer", VStr "Error: Connection error.");
            ("intermediate", VDict [])];
           [("question", VStr "SELECT 2");
            ("answer", VStr "Error: Connection error.");
            ("intermediate", VDict [])]].
Proof.
  split; [constructor|].
  exact (session_records_submitted_questions (E := Stub.unreachable) []
           [Some "SELECT 1"; None; Some ""; Some "SELECT 2"]
           (Forall_nil _)).
Defined.
